(** * Slack MCP server: the record query / filter engine

    A shallow embedding of [server.py]: [query_messages], [get_new_members]
    and the [query_messages] / [get_channel_stats] branches of [call_tool],
    followed by the properties the specification states about them.

    Python dictionaries received as keyword arguments ([**filters],
    [arguments]) are finite maps from key names to JSON scalars; message and
    member dictionaries are records whose fields are optional, a missing key
    being [None]; exceptions are an error monad. *)

From Stdlib Require Import ZArith Ascii String Sorted.
From stdpp Require Import base option list sorting gmap strings.

Open Scope string_scope.
Open Scope list_scope.
Open Scope Z_scope.

(** ** Python values and exceptions *)

(** The exceptions the modelled code can raise. *)
Inductive exn : Type :=
  | TypeError
  | ValueError
  | AttributeError
  | OverflowError
  | OSError.

(** A computation that either returns or raises. *)
Inductive result (A : Type) : Type :=
  | Ok (a : A)
  | Raise (e : exn).
Arguments Ok {A} a.
Arguments Raise {A} e.

#[global] Instance result_ret : MRet result := λ A a, Ok a.
#[global] Instance result_bind : MBind result := λ A B f m,
  match m with
  | Ok a => f a
  | Raise e => Raise e
  end.
#[global] Instance result_fmap : FMap result := λ A B f m,
  match m with
  | Ok a => Ok (f a)
  | Raise e => Raise e
  end.

Definition raises {A : Type} (m : result A) : Prop := ∃ e, m = Raise e.

(** JSON scalars as they reach the tool in [arguments]. *)
Inductive value : Type :=
  | VNone
  | VBool (b : bool)
  | VInt (n : Z)
  | VStr (s : string).

(** A [datetime] object: naive (no zone) or aware.  The payload is the
    position on the microsecond line of its calendar, so that the order of two
    naive values is the order of their payloads. *)
Inductive datetime : Type :=
  | Naive (us : Z)
  | Aware (us : Z).

(** [a < b] on datetimes; mixing naive and aware raises [TypeError]. *)
Definition dt_lt (a b : datetime) : result bool :=
  match a, b with
  | Naive x, Naive y => Ok (x <? y)
  | Aware x, Aware y => Ok (x <? y)
  | _, _ => Raise TypeError
  end.

(** [a > b] on datetimes. *)
Definition dt_gt (a b : datetime) : result bool := dt_lt b a.

(** ** The library functions the code calls

    [float], [datetime.fromtimestamp], [datetime.fromisoformat] and
    [str.lower] belong to the Python runtime, not to the repository; the
    development is parametric in them.  [fromtimestamp] is called without a
    zone and so yields a naive local date-time, given by its payload. *)
Class Runtime : Type := {
  pyfloat : Type;
  py_float : string → result pyfloat;
  fromtimestamp : pyfloat → result Z;
  fromisoformat : string → result datetime;
  lower : string → string
}.

(** ** Strings *)

Fixpoint starts_with (p s : string) : bool :=
  match p, s with
  | EmptyString, _ => true
  | String a p', String b s' => bool_decide (a = b) && starts_with p' s'
  | String _ _, EmptyString => false
  end.

(** [needle in hay] for two [str]. *)
Fixpoint contains (needle hay : string) : bool :=
  starts_with needle hay ||
  match hay with
  | EmptyString => false
  | String _ hay' => contains needle hay'
  end.

(** [v in hay] where [hay] is a [str]: a left operand that is not a [str]
    raises [TypeError]. *)
Definition str_in (v : value) (hay : string) : result bool :=
  match v with
  | VStr s => Ok (contains s hay)
  | _ => Raise TypeError
  end.

(** [v == b] for a Python [bool] [b]; [bool] is a subclass of [int]. *)
Definition py_eq_bool (v : value) (b : bool) : bool :=
  match v with
  | VBool x => bool_decide (x = b)
  | VInt n => n =? (if b then 1 else 0)
  | VNone | VStr _ => false
  end.

(** Truthiness, as tested by [if v:] and [not v]. *)
Definition truthy (v : value) : bool :=
  match v with
  | VNone => false
  | VBool b => b
  | VInt n => negb (n =? 0)
  | VStr s => negb (bool_decide (s = ""))
  end.

(** ** Data model *)

Record message : Type := {
  channel_name : option string;
  channel_id : option string;
  user_name : option string;
  text : option string;
  ts : option string;
  reply_count : option Z
}.

Record member : Type := {
  name : option string;
  member_text : option string;
  permalink : option string;
  member_ts : option string
}.

(** The decoded snapshot; the keys the query functions read. *)
Record dataset : Type := {
  all_messages : option (list message);
  new_members : option (list member)
}.

(** The inline literal table of [query_messages]. *)
Definition category_map : gmap string string :=
  list_to_map
    [ ("intro", "07-intros");
      ("ask", "05-asks");
      ("discussion", "02-discussion");
      ("news", "03-news");
      ("session", "09-00-hemingway-sessions") ].

(** Short-circuit conjunction of two checks: the second one is not run, and
    cannot raise, when the first one says [continue]. *)
Definition and_then (a b : result bool) : result bool :=
  x ← a; if x : bool then b else Ok false.
Infix "<&&>" := and_then (at level 41, right associativity).

Section QueryFunctions.
Context `{Runtime}.

(** [v.lower()]: only [str] has the method. *)
Definition str_lower (v : value) : result string :=
  match v with
  | VStr s => Ok (lower s)
  | _ => Raise AttributeError
  end.

(** [datetime.fromisoformat(v)]: the argument must be a [str]. *)
Definition parse_iso (v : value) : result datetime :=
  match v with
  | VStr s => fromisoformat s
  | _ => Raise TypeError
  end.

(** [datetime.fromtimestamp(float(ts))] with [ts] defaulting to ["0"]. *)
Definition local_time (ts : option string) : result Z :=
  f ← py_float (default "0" ts); fromtimestamp f.

(** The lower bound: [False] stands for [continue]. *)
Definition check_from (msg_date : Z) (v : value) : result bool :=
  from_dt ← parse_iso v;
  before ← dt_lt (Naive msg_date) from_dt;
  Ok (negb before).

(** The upper bound. *)
Definition check_to (msg_date : Z) (v : value) : result bool :=
  to_dt ← parse_iso v;
  after ← dt_gt (Naive msg_date) to_dt;
  Ok (negb after).

Definition check_channel (filters : gmap string value) (msg : message)
  : result bool :=
  match filters !! "channel" with
  | None => Ok true
  | Some v => str_in v (default "" (channel_name msg))
  end.

Definition check_dates (filters : gmap string value) (msg : message)
  : result bool :=
  match filters !! "from_date", filters !! "to_date" with
  | None, None => Ok true
  | from_date, to_date =>
      msg_date ← local_time (ts msg);
      match from_date with
      | None => Ok true
      | Some v => check_from msg_date v
      end <&&>
      match to_date with
      | None => Ok true
      | Some v => check_to msg_date v
      end
  end.

Definition check_user (filters : gmap string value) (msg : message)
  : result bool :=
  match filters !! "user" with
  | None => Ok true
  | Some v =>
      let user_name := lower (default "" (user_name msg)) in
      u ← str_lower v; Ok (contains u user_name)
  end.

Definition check_search_text (filters : gmap string value) (msg : message)
  : result bool :=
  match filters !! "search_text" with
  | None => Ok true
  | Some v =>
      let text := lower (default "" (text msg)) in
      s ← str_lower v; Ok (contains s text)
  end.

Definition check_has_replies (filters : gmap string value) (msg : message)
  : result bool :=
  match filters !! "has_replies" with
  | None => Ok true
  | Some v =>
      let has_replies := 0 <? default 0 (reply_count msg) in
      Ok (py_eq_bool v has_replies)
  end.

Definition check_category (filters : gmap string value) (msg : message)
  : result bool :=
  match filters !! "category" with
  | None => Ok true
  | Some v =>
      category ← str_lower v;
      let channel := default "" (channel_name msg) in
      match category_map !! category with
      | Some marker => Ok (contains marker channel)
      | None => Ok true
      end
  end.

(** One iteration of the loop of [query_messages]: [Ok true] when control
    reaches [results.append(msg)], [Ok false] on [continue]. *)
Definition msg_passes (filters : gmap string value) (msg : message)
  : result bool :=
  check_channel filters msg <&&>
  check_dates filters msg <&&>
  check_user filters msg <&&>
  check_search_text filters msg <&&>
  check_has_replies filters msg <&&>
  check_category filters msg.

(** The [for msg in messages] loop, threading [results]. *)
Fixpoint query_loop (filters : gmap string value) (messages results : list message)
  : result (list message) :=
  match messages with
  | [] => Ok results
  | msg :: rest =>
      keep ← msg_passes filters msg;
      query_loop filters rest (if keep : bool then results ++ [msg] else results)
  end.

Definition query_messages (data : dataset) (filters : gmap string value)
  : result (list message) :=
  query_loop filters (default [] (all_messages data)) [].

End QueryFunctions.

Section MemberQuery.
Context `{Runtime}.

(** One iteration of the loop of [get_new_members]; the bounds are tested
    for truthiness, not for presence. *)
Definition member_passes (from_date to_date : value) (m : member)
  : result bool :=
  member_date ← local_time (member_ts m);
  (if truthy from_date then check_from member_date from_date else Ok true) <&&>
  (if truthy to_date then check_to member_date to_date else Ok true).

Fixpoint members_loop (from_date to_date : value) (members results : list member)
  : result (list member) :=
  match members with
  | [] => Ok results
  | m :: rest =>
      keep ← member_passes from_date to_date m;
      members_loop from_date to_date rest
        (if keep : bool then results ++ [m] else results)
  end.

Definition get_new_members (data : dataset) (from_date to_date : value)
  : result (list member) :=
  let members := default [] (new_members data) in
  if negb (truthy from_date) && negb (truthy to_date) then Ok members
  else members_loop from_date to_date members [].

End MemberQuery.

(** ** The tool dispatcher

    [call_tool] first locates and loads the snapshot; the two branches below
    are modelled from the loaded [data] on. *)

(** [l[:n]] for an [int] [n]: a negative [n] counts from the end. *)
Definition slice_upto {A : Type} (n : Z) (l : list A) : list A :=
  if 0 <=? n then take (Z.to_nat n) l
  else take (Z.to_nat (Z.of_nat (length l) + n)) l.

(** [l[:limit]] for a JSON scalar: [None] keeps everything, a [bool] is an
    [int], a [str] is not an index. *)
Definition slice_limit {A : Type} (limit : value) (l : list A) : result (list A) :=
  match limit with
  | VNone => Ok l
  | VBool b => Ok (slice_upto (if b then 1 else 0) l)
  | VInt n => Ok (slice_upto n l)
  | VStr _ => Raise TypeError
  end.

(** What [call_tool] sends back: the content of a branch, or the text
    [Error: ...] of its [except Exception] clause. *)
Inductive reply (A : Type) : Type :=
  | Content (a : A)
  | ErrorText (e : exn).
Arguments Content {A} a.
Arguments ErrorText {A} e.

Definition guarded {A : Type} (m : result A) : reply A :=
  match m with
  | Ok a => Content a
  | Raise e => ErrorText e
  end.

(** An insertion-ordered [dict] from channel names to counts. *)
Fixpoint dict_get (d : list (string * Z)) (k : string) (dflt : Z) : Z :=
  match d with
  | [] => dflt
  | (k', v) :: d' => if bool_decide (k' = k) then v else dict_get d' k dflt
  end.

(** [d[k] = v]: an existing key keeps its place, a new one goes last. *)
Fixpoint dict_set (d : list (string * Z)) (k : string) (v : Z) : list (string * Z) :=
  match d with
  | [] => [(k, v)]
  | (k', v') :: d' =>
      if bool_decide (k' = k) then (k', v) :: d' else (k', v') :: dict_set d' k v
  end.

(** The counting loop of the [get_channel_stats] branch. *)
Definition count_by_channel (messages : list message) : list (string * Z) :=
  foldl (λ stats msg,
           let channel := default "unknown" (channel_name msg) in
           dict_set stats channel (dict_get stats channel 0 + 1))
        [] messages.

(** [sorted(items, key=lambda x: x[1], reverse=True)]: [sorted] is stable and
    [reverse=True] keeps items of equal key in their original order, which
    determines the result; it is computed here by insertion. *)
Fixpoint insert_desc (x : string * Z) (l : list (string * Z)) : list (string * Z) :=
  match l with
  | [] => [x]
  | y :: l' => if x.2 <? y.2 then y :: insert_desc x l' else x :: y :: l'
  end.

Fixpoint sorted_desc (items : list (string * Z)) : list (string * Z) :=
  match items with
  | [] => []
  | x :: items' => insert_desc x (sorted_desc items')
  end.

Definition channel_stats (messages : list message) : list (string * Z) :=
  sorted_desc (count_by_channel messages).

Section CallTool.
Context `{Runtime}.

(** The [query_messages] branch up to the list [messages] that it goes on
    to project and serialise.  [limit] is popped, the other arguments become
    keyword arguments; a key [data] would collide with the positional
    parameter. *)
Definition call_tool_query_messages (data : dataset) (arguments : gmap string value)
  : reply (list message) :=
  guarded (
    let limit := default (VInt 50) (arguments !! "limit") in
    let arguments := delete "limit" arguments in
    if bool_decide (is_Some (arguments !! "data")) then Raise TypeError
    else
      messages ← query_messages data arguments;
      slice_limit limit messages).

(** The [get_channel_stats] branch; [arguments.get] yields [None] for a
    missing key, and both bounds are always passed on. *)
Definition call_tool_get_channel_stats (data : dataset) (arguments : gmap string value)
  : reply (list (string * Z)) :=
  guarded (
    let from_date := default VNone (arguments !! "from_date") in
    let to_date := default VNone (arguments !! "to_date") in
    messages ← query_messages data
                 (<["to_date" := to_date]> (<["from_date" := from_date]> ∅));
    Ok (channel_stats messages)).

End CallTool.

(** ** A reference runtime

    A concrete runtime on which the functions above can be run: the host
    zone is UTC, [float] reads plain decimal numerals (digits with an optional
    fractional part), [fromisoformat] reads [YYYY-MM-DD], [lower] maps the
    ASCII capitals.  On ASCII text, on numerals with at most six fractional
    digits and on calendar dates it returns what CPython returns on a UTC
    host. *)
Module Reference.

Definition digit_of (c : ascii) : option Z :=
  let n := Z.of_nat (nat_of_ascii c) in
  if (48 <=? n) && (n <=? 57) then Some (n - 48) else None.

(** The number written by a string of digits, after [acc]. *)
Fixpoint digits_from (acc : Z) (s : string) : option Z :=
  match s with
  | EmptyString => Some acc
  | String c s' => d ← digit_of c; digits_from (10 * acc + d) s'
  end.

(** Up to [n] fractional digits after [acc], padded with zeros; further
    digits are checked and dropped. *)
Fixpoint fraction_from (n : nat) (acc : Z) (s : string) : option Z :=
  match n, s with
  | O, _ => _ ← digits_from 0 s; Some acc
  | S n', EmptyString => fraction_from n' (10 * acc) EmptyString
  | S n', String c s' => d ← digit_of c; fraction_from n' (10 * acc + d) s'
  end.

(** Split at the first ["."]. *)
Fixpoint split_dot (s : string) : string * option string :=
  match s with
  | EmptyString => (EmptyString, None)
  | String c s' =>
      if bool_decide (c = "."%char) then (EmptyString, Some s')
      else let '(a, b) := split_dot s' in (String c a, b)
  end.

(** Seconds since the epoch, in microseconds. *)
Definition float_of_string (s : string) : result Z :=
  let '(whole, frac) := split_dot s in
  let frac := default "" frac in
  if bool_decide (whole = "") && bool_decide (frac = "") then Raise ValueError
  else
    match digits_from 0 whole, fraction_from 6 0 frac with
    | Some w, Some f => Ok (w * 1000000 + f)
    | _, _ => Raise ValueError
    end.

Definition us_per_day : Z := 86400 * 1000000.

(** Days from 1970-01-01 to the given civil date. *)
Definition days_from_civil (y m d : Z) : Z :=
  let y' := if m <=? 2 then y - 1 else y in
  let era := y' / 400 in
  let yoe := y' - era * 400 in
  let doy := (153 * (if 2 <? m then m - 3 else m + 9) + 2) / 5 + d - 1 in
  let doe := yoe * 365 + yoe / 4 - yoe / 100 + doy in
  era * 146097 + doe - 719468.

Definition is_leap (y : Z) : bool :=
  ((y mod 4 =? 0) && negb (y mod 100 =? 0)) || (y mod 400 =? 0).

Definition days_in_month (y m : Z) : Z :=
  if m =? 2 then (if is_leap y then 29 else 28)
  else if (m =? 4) || (m =? 6) || (m =? 9) || (m =? 11) then 30
  else 31.

(** The zone is UTC, so local time is the time since the epoch; the range is
    that of the years 1 to 9999. *)
Definition utc_fromtimestamp (t : Z) : result Z :=
  if (days_from_civil 1 1 1 * us_per_day <=? t)
     && (t <? days_from_civil 10000 1 1 * us_per_day)
  then Ok t
  else Raise ValueError.

(** [YYYY-MM-DD], midnight of that day. *)
Definition date_fromisoformat (s : string) : result datetime :=
  match s with
  | String y1 (String y2 (String y3 (String y4 (String "-"
      (String m1 (String m2 (String "-" (String d1 (String d2 EmptyString))))))))) =>
      match digits_from 0 (String y1 (String y2 (String y3 (String y4 EmptyString)))),
            digits_from 0 (String m1 (String m2 EmptyString)),
            digits_from 0 (String d1 (String d2 EmptyString)) with
      | Some y, Some m, Some d =>
          if (1 <=? y) && (1 <=? m) && (m <=? 12) && (1 <=? d)
             && (d <=? days_in_month y m)
          then Ok (Naive (days_from_civil y m d * us_per_day))
          else Raise ValueError
      | _, _, _ => Raise ValueError
      end
  | _ => Raise ValueError
  end.

Definition ascii_lower (c : ascii) : ascii :=
  let n := nat_of_ascii c in
  if (65 <=? n)%nat && (n <=? 90)%nat then ascii_of_nat (n + 32) else c.

Fixpoint lower_ascii (s : string) : string :=
  match s with
  | EmptyString => EmptyString
  | String c s' => String (ascii_lower c) (lower_ascii s')
  end.

Definition runtime : Runtime := {|
  pyfloat := Z;
  py_float := float_of_string;
  fromtimestamp := utc_fromtimestamp;
  fromisoformat := date_fromisoformat;
  lower := lower_ascii
|}.

End Reference.

(** ** Vocabulary of the specification *)

(** The keys [query_messages] looks for in [filters]. *)
Definition filter_keys : list string :=
  ["channel"; "from_date"; "to_date"; "user"; "search_text"; "has_replies";
   "category"].

(** A filter request in which every field is absent. *)
Definition all_absent (filters : gmap string value) : Prop :=
  ∀ k, k ∈ filter_keys → filters !! k = None.

(** The messages of a dataset, [data.get("all_messages", [])]. *)
Definition messages_of (data : dataset) : list message :=
  default [] (all_messages data).

(** [reply_count], zero when missing. *)
Definition replies (msg : message) : Z := default 0 (reply_count msg).

Section FilterVocabulary.
Context `{Runtime}.

(** A filter request with no field other than the two date bounds. *)
Definition dates_only (filters : gmap string value) : Prop :=
  ∀ k, k ∈ ["channel"; "user"; "search_text"; "has_replies"; "category"] →
       filters !! k = None.

(** The date bound under [key]: absent, or a string that [fromisoformat]
    reads as the naive date-time [z] (midnight, for a calendar date). *)
Inductive bound_at (filters : gmap string value) (key : string)
  : option Z → Prop :=
  | bound_absent :
      filters !! key = None → bound_at filters key None
  | bound_present (s : string) (z : Z) :
      filters !! key = Some (VStr s) →
      fromisoformat s = Ok (Naive z) →
      bound_at filters key (Some z).

(** The same for an argument of [get_new_members], where a falsy value
    (no argument, [None], the empty string) means no bound. *)
Inductive member_bound : value → option Z → Prop :=
  | member_bound_falsy (v : value) :
      truthy v = false → member_bound v None
  | member_bound_date (s : string) (z : Z) :
      s ≠ "" →
      fromisoformat s = Ok (Naive z) →
      member_bound (VStr s) (Some z).

(** [d] lies between the bounds that are there, both ends included. *)
Definition in_range (lo : option Z) (d : Z) (hi : option Z) : bool :=
  from_option (λ a, a <=? d) true lo && from_option (λ b, d <=? b) true hi.

(** A bound that [datetime.fromisoformat] rejects: not a [str], or not a
    date it can read. *)
Definition malformed (v : value) : Prop := raises (parse_iso v).

(** The loop appends the message: it raises nothing and does not
    [continue]. *)
Definition appended (filters : gmap string value) (msg : message) : bool :=
  match msg_passes filters msg with
  | Ok keep => keep
  | Raise _ => false
  end.

(** The channel filter sends the loop to the next message. *)
Definition skipped_by_channel (filters : gmap string value) (msg : message)
  : Prop :=
  check_channel filters msg = Ok false.

(** The lower date bound sends the loop to the next message. *)
Definition skipped_by_from (filters : gmap string value) (msg : message)
  : Prop :=
  ∃ w d, filters !! "from_date" = Some w ∧ local_time (ts msg) = Ok d
         ∧ check_from d w = Ok false.

(** The loop leaves the message before it has parsed [to_date]. *)
Definition skipped_early (filters : gmap string value) (msg : message)
  : Prop :=
  skipped_by_channel filters msg
  ∨ (check_channel filters msg = Ok true ∧ skipped_by_from filters msg).

End FilterVocabulary.

(** The bucket of a message in the channel statistics. *)
Definition channel_of (msg : message) : string :=
  default "unknown" (channel_name msg).

(** One step of the counting loop, on the channel name. *)
Definition tally (stats : list (string * Z)) (channel : string)
  : list (string * Z) :=
  dict_set stats channel (dict_get stats channel 0 + 1).

(** How many times [c] occurs in a sequence of channel names. *)
Fixpoint occurrences (c : string) (channels : list string) : Z :=
  match channels with
  | [] => 0
  | x :: channels' =>
      (if bool_decide (x = c) then 1 else 0) + occurrences c channels'
  end.

(** The position of the first occurrence of [c]; the length when there is
    none. *)
Fixpoint first_index (c : string) (channels : list string) : nat :=
  match channels with
  | [] => O
  | x :: channels' =>
      if bool_decide (x = c) then O else S (first_index c channels')
  end.

(** The order of first occurrence in [channels]. *)
Definition seen_before (channels : list string) (c c' : string) : Prop :=
  (first_index c channels < first_index c' channels)%nat.

(** The order of the statistics: larger count first; among equal counts,
    the channel met first in the input. *)
Definition stats_before (channels : list string) (p q : string * Z) : Prop :=
  q.2 < p.2 ∨ (p.2 = q.2 ∧ seen_before channels p.1 q.1).

(** ** Sample data *)

Module Sample.

Definition msg (channel : string) (when : option string) (count : option Z)
  : message :=
  {| channel_name := Some channel;
     channel_id := Some "C024BE91L";
     user_name := Some "Ada";
     text := Some "Hello, world";
     ts := when;
     reply_count := count |}.

(** One microsecond before midnight of 2024-01-01 (UTC). *)
Definition before : message := msg "05-asks" (Some "1704067199.999999") None.
(** Midnight of 2024-01-01. *)
Definition jan1 : message := msg "02-discussion" (Some "1704067200.000000") (Some 2).
Definition inside : message := msg "02-discussion" (Some "1705000000.000100") (Some 0).
(** Midnight of 2024-01-31. *)
Definition jan31 : message := msg "07-intros" (Some "1706659200") (Some 1).
(** One microsecond later. *)
Definition after : message := msg "05-asks" (Some "1706659200.000001") None.
(** A message without [ts]. *)
Definition undated : message := msg "03-news" None None.

Definition newcomer : member :=
  {| name := Some "Grace";
     member_text := Some "Hi all";
     permalink := None;
     member_ts := None |}.

Definition data : dataset :=
  {| all_messages := Some [before; jan1; inside; jan31; after];
     new_members := Some [newcomer] |}.

Definition undated_data : dataset :=
  {| all_messages := Some [undated]; new_members := Some [newcomer] |}.

Definition january : gmap string value :=
  <["from_date" := VStr "2024-01-01"]> {["to_date" := VStr "2024-01-31"]}.

Definition late : message := msg "05-asks" (Some "1707000000") (Some 4).

(** Three messages of one channel among those of another. *)
Definition asks : dataset :=
  {| all_messages := Some [jan1; before; inside; after; late];
     new_members := None |}.

Definition in_discussion : gmap string value := {["channel" := VStr "discussion"]}.

(** The local date-time of a message on the reference runtime. *)
Definition when (m : message) : Z :=
  match @local_time Reference.runtime (ts m) with
  | Ok z => z
  | Raise _ => 0
  end.

End Sample.

(** ** The snapshot locator

    [get_latest_extraction] reads the home directory through [Path.glob] and
    [Path.stat]; both are parameters.  [glob pattern] lists the paths that
    match, in the order the directory yields them, and [st_mtime] gives the
    modification time of a path, of which only the order is used. *)

Section Locator.
Variable glob : string → list string.
Variable st_mtime : string → Z.

Definition patterns : list string :=
  ["hemingway_*.json"; "slack_*.json"; "*_slack_export.json"].

(** [candidates], extended pattern after pattern: a path that matches two
    patterns is there twice. *)
Definition candidates : list string :=
  foldl (λ candidates pattern, candidates ++ glob pattern) [] patterns.

(** [sorted(candidates, key=mtime, reverse=True)[0]], or [None]. *)
Definition get_latest_extraction : option string :=
  match candidates with
  | [] => None
  | _ => fst <$> head (sorted_desc ((λ p, (p, st_mtime p)) <$> candidates))
  end.

End Locator.

(** ** The projections of [call_tool]

    A [str] is the sequence of its characters, one [ascii] each. *)

(** [s[:n]]. *)
Fixpoint take_chars (n : nat) (s : string) : string :=
  match n, s with
  | O, _ => EmptyString
  | S _, EmptyString => EmptyString
  | S n', String c s' => String c (take_chars n' s')
  end.

(** [s.replace('.', '')]. *)
Fixpoint remove_dots (s : string) : string :=
  match s with
  | EmptyString => EmptyString
  | String c s' =>
      if bool_decide (c = "."%char) then remove_dots s'
      else String c (remove_dots s')
  end.

(** The record the [query_messages] branch builds for a message. *)
Record simplified : Type := {
  out_user : string;
  out_channel : string;
  out_text : string;
  out_timestamp : string;
  out_reply_count : Z;
  out_permalink : string
}.

Definition archives : string := "https://hemingway-community.slack.com/archives/".

(** A missing [channel_id] is formatted as [None] by the f-string. *)
Definition simplify_message (msg : message) : simplified :=
  {| out_user := default "Unknown" (user_name msg);
     out_channel := default "" (channel_name msg);
     out_text := take_chars 200 (default "" (text msg));
     out_timestamp := default "" (ts msg);
     out_reply_count := default 0 (reply_count msg);
     out_permalink :=
       archives +:+ default "None" (channel_id msg) +:+ "/p"
       +:+ remove_dots (default "" (ts msg)) |}.

(** The record the [get_new_members] branch builds for a member. *)
Record simplified_member : Type := {
  out_name : string;
  out_intro_text : string;
  out_member_permalink : string;
  out_joined_date : string
}.

(** A list comprehension whose element expression may raise. *)
Fixpoint comprehension {A B : Type} (f : A → result B) (l : list A)
  : result (list B) :=
  match l with
  | [] => Ok []
  | x :: l' => y ← f x; ys ← comprehension f l'; Ok (y :: ys)
  end.

Section Projections.
Context `{Runtime}.

(** [strftime("%Y-%m-%d")] on a naive local date-time, a function of the
    runtime as well. *)
Variable strftime_ymd : Z → string.

(** The whole [query_messages] branch, up to the list that is serialised. *)
Definition call_tool_query_messages_simplified
    (data : dataset) (arguments : gmap string value) : reply (list simplified) :=
  match call_tool_query_messages data arguments with
  | Content messages => Content (simplify_message <$> messages)
  | ErrorText e => ErrorText e
  end.

(** The joined date reads [ts] again, the other fields cannot raise. *)
Definition simplify_member (m : member) : result simplified_member :=
  joined ← local_time (member_ts m);
  Ok {| out_name := default "Unknown" (name m);
        out_intro_text := take_chars 200 (default "" (member_text m));
        out_member_permalink := default "" (permalink m);
        out_joined_date := strftime_ymd joined |}.

(** The [get_new_members] branch, up to the list that is serialised. *)
Definition call_tool_get_new_members (data : dataset) (arguments : gmap string value)
  : reply (list simplified_member) :=
  guarded (
    let from_date := default VNone (arguments !! "from_date") in
    let to_date := default VNone (arguments !! "to_date") in
    members ← get_new_members data from_date to_date;
    comprehension simplify_member members).

End Projections.

(** ** Typed filter requests *)

(** A request whose fields have the types the tool schema declares. *)
Record filter_spec : Type := {
  fs_channel : option string;
  fs_from_date : option string;
  fs_to_date : option string;
  fs_user : option string;
  fs_search_text : option string;
  fs_has_replies : option bool;
  fs_category : option string
}.

(** Add a keyword argument when the field is there. *)
Definition put (k : string) (o : option value) (m : gmap string value)
  : gmap string value :=
  match o with
  | Some v => <[k := v]> m
  | None => m
  end.

(** The keyword arguments a typed request stands for. *)
Definition kwargs (s : filter_spec) : gmap string value :=
  put "channel" (VStr <$> fs_channel s)
    (put "from_date" (VStr <$> fs_from_date s)
      (put "to_date" (VStr <$> fs_to_date s)
        (put "user" (VStr <$> fs_user s)
          (put "search_text" (VStr <$> fs_search_text s)
            (put "has_replies" (VBool <$> fs_has_replies s)
              (put "category" (VStr <$> fs_category s) ∅)))))).

(** Anything but a [str]. *)
Definition not_str (v : value) : Prop :=
  match v with
  | VStr _ => False
  | _ => True
  end.

(** The sum of the counts of a statistics list. *)
Definition total_count (stats : list (string * Z)) : Z :=
  foldr (λ p acc, p.2 + acc) 0 stats.

Section TypedVocabulary.
Context `{Runtime}.

(** A date field: absent, or a string read as the naive date-time [z]. *)
Inductive reads_as : option string → option Z → Prop :=
  | reads_absent : reads_as None None
  | reads_date (s : string) (z : Z) :
      fromisoformat s = Ok (Naive z) → reads_as (Some s) (Some z).

(** The conjunction of the predicates of a typed request on a message dated
    [d]. *)
Definition spec_matches (s : filter_spec) (lo hi : option Z) (d : Z)
    (msg : message) : bool :=
  from_option (λ c, contains c (default "" (channel_name msg))) true (fs_channel s)
  && in_range lo d hi
  && from_option (λ u, contains (lower u) (lower (default "" (user_name msg))))
       true (fs_user s)
  && from_option (λ t, contains (lower t) (lower (default "" (text msg))))
       true (fs_search_text s)
  && from_option (λ b, bool_decide (b = (0 <? replies msg))) true (fs_has_replies s)
  && from_option
       (λ c, from_option (λ marker, contains marker (default "" (channel_name msg)))
               true (category_map !! lower c))
       true (fs_category s).

End TypedVocabulary.

(** ** A reference host for the locator and the projections

    A directory listing with single-star patterns, and the calendar of the
    reference runtime (UTC, years of four digits). *)
Module ReferenceHost.

Definition ends_with (suffix s : string) : bool :=
  let n := String.length s in
  let k := String.length suffix in
  bool_decide (k ≤ n)%nat
  && bool_decide (String.substring (n - k) k s = suffix).

(** A pattern with one star: the name starts with what is before the star,
    ends with what is after it, and the two do not overlap. *)
Fixpoint split_star (pattern : string) : string * string :=
  match pattern with
  | EmptyString => (EmptyString, EmptyString)
  | String c pattern' =>
      if bool_decide (c = "*"%char) then (EmptyString, pattern')
      else let '(a, b) := split_star pattern' in (String c a, b)
  end.

Definition matches_star (pattern name : string) : bool :=
  let '(before, after) := split_star pattern in
  starts_with before name && ends_with after name
  && bool_decide (String.length before + String.length after
                  ≤ String.length name)%nat.

(** The home directory: names and modification times, in directory order. *)
Definition home : list (string * Z) :=
  [ ("slack_2024-06-01.json", 1717200000);
    ("notes.txt", 1720000000);
    ("slack_2024-01-01.json", 1704100000);
    ("team_slack_export.json", 1717200000);
    ("hemingway_old.json", 1690000000) ].

Definition glob_in (dir : list (string * Z)) (pattern : string) : list string :=
  List.filter (matches_star pattern) dir.*1.

Definition mtime_in (dir : list (string * Z)) (path : string) : Z :=
  dict_get dir path 0.

(** The civil date of a day number, day 0 being 1970-01-01. *)
Definition civil_from_days (days : Z) : Z * Z * Z :=
  let z := days + 719468 in
  let era := z / 146097 in
  let doe := z - era * 146097 in
  let yoe := (doe - doe / 1460 + doe / 36524 - doe / 146096) / 365 in
  let doy := doe - (365 * yoe + yoe / 4 - yoe / 100) in
  let mp := (5 * doy + 2) / 153 in
  let d := doy - (153 * mp + 2) / 5 + 1 in
  let m := if mp <? 10 then mp + 3 else mp - 9 in
  let y := yoe + era * 400 + (if m <=? 2 then 1 else 0) in
  (y, m, d).

(** [n] written with [width] digits. *)
Fixpoint digits (width : nat) (n : Z) : string :=
  match width with
  | O => EmptyString
  | S width' =>
      digits width' (n / 10)
      +:+ String (ascii_of_nat (48 + Z.to_nat (n mod 10))) EmptyString
  end.

Definition strftime_ymd (t : Z) : string :=
  let '(y, m, d) := civil_from_days (t / Reference.us_per_day) in
  digits 4 y +:+ "-" +:+ digits 2 m +:+ "-" +:+ digits 2 d.

End ReferenceHost.

Module MoreSamples.

Definition joined (who : string) (when : option string) : member :=
  {| name := Some who;
     member_text := Some "Glad to be here";
     permalink := Some "https://example.org/p1";
     member_ts := when |}.

(** Joined at midnight of 2024-01-01, of 2024-01-31, and one second later. *)
Definition ada : member := joined "Ada" (Some "1704067200").
Definition bob : member := joined "Bob" (Some "1706659200").
Definition cy : member := joined "Cy" (Some "1706659201").
(** A member whose [ts] is no number. *)
Definition dee : member := joined "Dee" (Some "soon").

Definition club : dataset :=
  {| all_messages := None; new_members := Some [ada; bob; cy] |}.

Definition odd_club : dataset :=
  {| all_messages := None; new_members := Some [ada; dee] |}.

Definition joined_at (m : member) : Z :=
  match @local_time Reference.runtime (member_ts m) with
  | Ok z => z
  | Raise _ => 0
  end.

(** A typed request: discussion channel, January 2024, with replies. *)
Definition busy_january : filter_spec :=
  {| fs_channel := Some "discussion";
     fs_from_date := Some "2024-01-01";
     fs_to_date := Some "2024-01-31";
     fs_user := Some "ADA";
     fs_search_text := Some "hello";
     fs_has_replies := Some true;
     fs_category := Some "Discussion" |}.

(** A message with a long text and no channel id. *)
Definition long_text : string :=
  "0123456789012345678901234567890123456789012345678901234567890123456789012345678901234567890123456789012345678901234567890123456789012345678901234567890123456789012345678901234567890123456789012345678901234567890123456789012345678901234567890123456789".

Definition wordy : message :=
  {| channel_name := Some "02-discussion";
     channel_id := None;
     user_name := None;
     text := Some long_text;
     ts := Some "1704067200.000100";
     reply_count := None |}.

End MoreSamples.

(** ** Properties of the error monad and of the loop *)

Lemma and_then_true_l (b : result bool) : Ok true <&&> b = b.
Proof. reflexivity. Qed.

Lemma and_then_ok (a b : bool) : Ok a <&&> Ok b = Ok (a && b).
Proof. by destruct a. Qed.

Lemma raises_Raise {A : Type} (e : exn) : raises (@Raise A e).
Proof. by exists e. Qed.

Lemma raises_bind {A B : Type} (m : result A) (f : A → result B) :
  raises m → raises (m ≫= f).
Proof. intros [e ->]. by exists e. Qed.

#[local] Hint Resolve raises_Raise : core.

(** Expose the six checks of one loop iteration. *)
Ltac unfold_checks :=
  unfold msg_passes, check_channel, check_dates, check_user,
    check_search_text, check_has_replies, check_category.

Section LoopProperties.
Context `{Runtime}.
Implicit Types (filters : gmap string value) (msg : message).
Implicit Types (messages results : list message).

(** The accumulator is only ever extended at its end. *)
Lemma query_loop_acc filters messages results :
  query_loop filters messages results
  = (results ++.) <$> query_loop filters messages [].
Proof.
  revert results. induction messages as [|msg rest IH]; intros results; simpl.
  - by rewrite app_nil_r.
  - destruct (msg_passes filters msg) as [[|]|e]; simpl; [|done|done].
    rewrite (IH (results ++ [msg])), (IH [msg]).
    destruct (query_loop filters rest []); simpl; [|done].
    by rewrite <- app_assoc.
Qed.

Lemma query_loop_cons filters msg rest :
  query_loop filters (msg :: rest) []
  = keep ← msg_passes filters msg;
    kept ← query_loop filters rest [];
    Ok (if keep : bool then msg :: kept else kept).
Proof.
  simpl. destruct (msg_passes filters msg) as [[|]|e]; simpl; [| |done].
  - rewrite query_loop_acc. by destruct (query_loop filters rest []).
  - by destruct (query_loop filters rest []).
Qed.

(** When no iteration raises, the loop is a filter. *)
Lemma query_loop_filter filters (p : message → bool) messages :
  (∀ msg, msg ∈ messages → msg_passes filters msg = Ok (p msg)) →
  query_loop filters messages [] = Ok (List.filter p messages).
Proof.
  induction messages as [|msg rest IH]; intros Hp; [done|].
  rewrite query_loop_cons, (Hp msg) by left. simpl.
  rewrite IH by (intros; apply Hp; by right). simpl.
  by destruct (p msg).
Qed.

(** Two filter maps that decide every message alike give the same result. *)
Lemma query_loop_ext filters filters' messages results :
  (∀ msg, msg ∈ messages → msg_passes filters msg = msg_passes filters' msg) →
  query_loop filters messages results = query_loop filters' messages results.
Proof.
  revert results. induction messages as [|msg rest IH]; intros results Hp; [done|].
  simpl. rewrite (Hp msg) by left.
  destruct (msg_passes filters' msg) as [keep|e]; simpl; [|done].
  apply IH. intros; apply Hp; by right.
Qed.

(** The first iteration that raises aborts the loop. *)
Lemma query_loop_raises filters messages results :
  Exists (λ msg, raises (msg_passes filters msg)) messages →
  raises (query_loop filters messages results).
Proof.
  intros Hex. revert results.
  induction Hex as [msg rest [e He]|msg rest _ IH]; intros results; simpl.
  - rewrite He. by exists e.
  - destruct (msg_passes filters msg) as [keep|e]; simpl; [apply IH|by exists e].
Qed.

Lemma filter_all {A : Type} (l : list A) : List.filter (λ _, true) l = l.
Proof. induction l; simpl; congruence. Qed.

Lemma filter_none {A : Type} (l : list A) : List.filter (λ _, false) l = [].
Proof. by induction l. Qed.

End LoopProperties.

(** ** The filter engine *)

Section FilterEngine.
Context `{Runtime}.
Implicit Types (filters : gmap string value) (msg : message) (data : dataset).

Lemma msg_passes_all_absent filters msg :
  all_absent filters → msg_passes filters msg = Ok true.
Proof.
  intros Habs.
  unfold_checks.
  rewrite !Habs by (unfold filter_keys; set_solver).
  reflexivity.
Qed.

(** C2: a filter request with every field absent returns [all_messages]
    unchanged, in the same order and of the same length. *)
Theorem empty_filter_returns_all data filters :
  all_absent filters →
  query_messages data filters = Ok (messages_of data).
Proof.
  intros Habs. unfold query_messages, messages_of.
  rewrite (query_loop_filter filters (λ _, true)).
  - by rewrite filter_all.
  - intros msg _. by apply msg_passes_all_absent.
Qed.

Lemma query_loop_sublist filters messages kept :
  query_loop filters messages [] = Ok kept → kept `sublist_of` messages.
Proof.
  revert kept. induction messages as [|msg rest IH]; intros kept.
  - simpl. intros [= <-]. constructor.
  - rewrite query_loop_cons.
    destruct (msg_passes filters msg) as [keep|e]; simpl; [|done].
    destruct (query_loop filters rest []) as [kept'|e]; simpl; [|done].
    intros [= <-]. specialize (IH kept' eq_refl).
    destruct keep; by constructor.
Qed.

Lemma query_loop_appended filters messages kept :
  query_loop filters messages [] = Ok kept →
  kept = List.filter (appended filters) messages.
Proof.
  revert kept. induction messages as [|msg rest IH]; intros kept.
  - simpl. by intros [= <-].
  - rewrite query_loop_cons. simpl. unfold appended at 1.
    destruct (msg_passes filters msg) as [keep|e]; simpl; [|done].
    destruct (query_loop filters rest []) as [kept'|e]; simpl; [|done].
    intros [= <-]. rewrite <- (IH kept' eq_refl). by destruct keep.
Qed.

(** C6: whenever [query_messages] returns, what it returns is a
    subsequence of [all_messages]: original relative order, nothing
    duplicated, and nothing merged, every occurrence that the loop appends
    being there. *)
Theorem result_is_subsequence data filters kept :
  query_messages data filters = Ok kept →
  kept `sublist_of` messages_of data
  ∧ kept = List.filter (appended filters) (messages_of data).
Proof.
  intros Hkept. split.
  - by apply query_loop_sublist with filters.
  - by apply query_loop_appended.
Qed.

Lemma msg_passes_has_replies (b : bool) msg :
  msg_passes {["has_replies" := VBool b]} msg
  = Ok (bool_decide (b = (0 <? replies msg))).
Proof.
  unfold_checks. rewrite lookup_singleton_eq, !lookup_singleton_ne by done.
  simpl. unfold replies. by destruct (bool_decide _).
Qed.

Lemma filter_ext_in {A : Type} (p q : A → bool) (l : list A) :
  (∀ x, x ∈ l → p x = q x) → List.filter p l = List.filter q l.
Proof.
  induction l as [|x l IH]; intros Hpq; [done|]. simpl.
  rewrite (Hpq x) by left. rewrite IH by (intros; apply Hpq; by right). done.
Qed.

(** C5: with the single filter [has_replies], [true] returns exactly the
    messages whose reply count (zero when missing) is positive, [false]
    returns exactly the others; when reply counts are non-negative, as the
    data model has them, the others are those with reply count zero. *)
Theorem has_replies_partition data :
  query_messages data {["has_replies" := VBool true]}
  = Ok (List.filter (λ msg, 0 <? replies msg) (messages_of data))
  ∧ query_messages data {["has_replies" := VBool false]}
    = Ok (List.filter (λ msg, negb (0 <? replies msg)) (messages_of data))
  ∧ (Forall (λ msg, 0 ≤ replies msg) (messages_of data) →
     query_messages data {["has_replies" := VBool false]}
     = Ok (List.filter (λ msg, replies msg =? 0) (messages_of data))).
Proof.
  assert (Hfalse : query_messages data {["has_replies" := VBool false]}
    = Ok (List.filter (λ msg, negb (0 <? replies msg)) (messages_of data))).
  { apply query_loop_filter. intros msg _.
    rewrite msg_passes_has_replies. by destruct (0 <? replies msg). }
  split; [|split; [done|]].
  - apply query_loop_filter. intros msg _.
    rewrite msg_passes_has_replies. by destruct (0 <? replies msg).
  - intros Hnonneg. rewrite Hfalse. f_equal.
    apply filter_ext_in. intros msg Hin.
    rewrite Forall_forall in Hnonneg. specialize (Hnonneg msg Hin).
    destruct (Z.ltb_spec 0 (replies msg)), (Z.eqb_spec (replies msg) 0);
      simpl; [lia|done|done|lia].
Qed.

Lemma msg_passes_unknown_category filters msg (c : string) :
  filters !! "category" = Some (VStr c) →
  category_map !! lower c = None →
  msg_passes filters msg = msg_passes (delete "category" filters) msg.
Proof.
  intros Hc Hunknown.
  unfold_checks.
  rewrite !lookup_delete_ne by done.
  rewrite lookup_delete_eq, Hc. simpl. by rewrite Hunknown.
Qed.

(** C1, as the code has it: a category string that, lower-cased, is none
    of intro, ask, discussion, news, session puts no constraint on the
    messages; the result, or the exception of another filter, is the one
    obtained without the category field. *)
Theorem unknown_category_is_ignored data filters (c : string) :
  filters !! "category" = Some (VStr c) →
  category_map !! lower c = None →
  query_messages data filters = query_messages data (delete "category" filters).
Proof.
  intros Hc Hunknown. apply query_loop_ext.
  intros msg _. by apply msg_passes_unknown_category with c.
Qed.

End FilterEngine.

(** ** Date bounds *)

Section DateRange.
Context `{Runtime}.
Implicit Types (filters : gmap string value) (msg : message) (data : dataset).

Lemma check_from_naive (d a : Z) (s : string) :
  fromisoformat s = Ok (Naive a) → check_from d (VStr s) = Ok (a <=? d).
Proof.
  intros Hs. unfold check_from, parse_iso. rewrite Hs. simpl.
  by rewrite Z.leb_antisym.
Qed.

Lemma check_to_naive (d b : Z) (s : string) :
  fromisoformat s = Ok (Naive b) → check_to d (VStr s) = Ok (d <=? b).
Proof.
  intros Hs. unfold check_to, parse_iso. rewrite Hs. simpl.
  by rewrite Z.leb_antisym.
Qed.

Lemma check_dates_in_range filters msg (lo hi : option Z) (d : Z) :
  bound_at filters "from_date" lo →
  bound_at filters "to_date" hi →
  local_time (ts msg) = Ok d →
  check_dates filters msg = Ok (in_range lo d hi).
Proof.
  intros Hlo Hhi Hd. unfold check_dates, in_range.
  destruct Hlo as [Hlo|s a Hlo Ha], Hhi as [Hhi|s' b Hhi Hb];
    rewrite Hlo, Hhi; [done|..]; rewrite Hd; simpl;
    rewrite ?(check_from_naive _ _ _ Ha), ?(check_to_naive _ _ _ Hb);
    by rewrite ?and_then_ok, ?andb_true_r.
Qed.

Lemma msg_passes_dates_only filters msg :
  dates_only filters → msg_passes filters msg = check_dates filters msg.
Proof.
  intros Honly. unfold msg_passes, check_channel, check_user,
    check_search_text, check_has_replies, check_category.
  rewrite !Honly by set_solver. simpl.
  by destruct (check_dates filters msg) as [[|]|e].
Qed.

(** C3: the date bounds are inclusive at both ends.  Whatever the other
    fields of the request, the date test lets a message through exactly when
    its local date-time lies between midnight of [from_date] and midnight of
    [to_date], the two midnights included; with date bounds only, the result
    is exactly the messages in that closed range: at either midnight a
    message is kept, strictly before the first or strictly after the second
    it is dropped. *)
Theorem date_range_inclusive filters (lo hi : option Z) :
  bound_at filters "from_date" lo →
  bound_at filters "to_date" hi →
  (∀ msg d,
      local_time (ts msg) = Ok d →
      check_dates filters msg = Ok (in_range lo d hi))
  ∧ (∀ data (when : message → Z),
      dates_only filters →
      (∀ msg, msg ∈ messages_of data → local_time (ts msg) = Ok (when msg)) →
      query_messages data filters
      = Ok (List.filter (λ msg, in_range lo (when msg) hi) (messages_of data))).
Proof.
  intros Hlo Hhi. split.
  - intros msg d Hd. by apply check_dates_in_range.
  - intros data when Honly Hwhen. apply query_loop_filter. intros msg Hin.
    rewrite msg_passes_dates_only by done.
    by apply check_dates_in_range; [..|apply Hwhen].
Qed.

Lemma in_range_at_lower (d : Z) (hi : option Z) :
  in_range (Some d) d hi = from_option (λ b, d <=? b) true hi.
Proof. unfold in_range. simpl. by rewrite Z.leb_refl. Qed.

Lemma in_range_at_upper (lo : option Z) (d : Z) :
  in_range lo d (Some d) = from_option (λ a, a <=? d) true lo.
Proof. unfold in_range. simpl. by rewrite Z.leb_refl, andb_true_r. Qed.

Lemma in_range_before (a d : Z) (hi : option Z) :
  d < a → in_range (Some a) d hi = false.
Proof. intros. unfold in_range. simpl. by rewrite (proj2 (Z.leb_gt a d)). Qed.

Lemma in_range_after (lo : option Z) (d b : Z) :
  b < d → in_range lo d (Some b) = false.
Proof.
  intros. unfold in_range. simpl.
  by rewrite (proj2 (Z.leb_gt d b)), andb_false_r.
Qed.

(** C4, as the code has it: a record without [ts] is dated at the local
    date-time [t0] of epoch 0; reading its [ts] does not raise, and it is
    kept exactly when [t0] lies within the bounds.  It fails the lower
    bounds later than [t0] and meets the upper bounds from [t0] on, not
    every bound. *)
Theorem missing_ts_is_epoch (zero : pyfloat) (t0 : Z) :
  py_float "0" = Ok zero →
  fromtimestamp zero = Ok t0 →
  (∀ filters msg lo hi,
      ts msg = None →
      dates_only filters →
      bound_at filters "from_date" lo →
      bound_at filters "to_date" hi →
      msg_passes filters msg = Ok (in_range lo t0 hi))
  ∧ (∀ from_date to_date m lo hi,
      member_ts m = None →
      member_bound from_date lo →
      member_bound to_date hi →
      member_passes from_date to_date m = Ok (in_range lo t0 hi)).
Proof.
  intros Hzero Ht0.
  assert (Hlocal : local_time None = Ok t0).
  { unfold local_time. simpl. by rewrite Hzero. }
  split.
  - intros filters msg lo hi Hts Honly Hlo Hhi.
    rewrite msg_passes_dates_only by done.
    apply check_dates_in_range; [done..|]. by rewrite Hts.
  - intros from_date to_date m lo hi Hts Hlo Hhi.
    unfold member_passes, in_range. rewrite Hts, Hlocal. simpl.
    destruct Hlo as [v Hv|s a Hs Ha], Hhi as [v' Hv'|s' b Hs' Hb]; simpl;
      rewrite ?Hv, ?Hv', ?(bool_decide_eq_false_2 _ Hs),
        ?(bool_decide_eq_false_2 _ Hs'); simpl;
      rewrite ?(check_from_naive _ _ _ Ha), ?(check_to_naive _ _ _ Hb);
      by rewrite ?and_then_ok, ?andb_true_r.
Qed.

End DateRange.

(** ** Malformed bounds and the dispatcher *)

Section Dispatcher.
Context `{Runtime}.
Implicit Types (filters arguments : gmap string value) (msg : message).
Implicit Types (data : dataset).

Lemma check_from_malformed (d : Z) (v : value) :
  malformed v → raises (check_from d v).
Proof. intros Hv. by apply raises_bind. Qed.

Lemma check_to_malformed (d : Z) (v : value) :
  malformed v → raises (check_to d v).
Proof. intros Hv. by apply raises_bind. Qed.

(** A message that gets past the channel filter meets the parse of a
    malformed [from_date], unless its own [ts] raises first. *)
Lemma malformed_from_raises filters msg (v : value) :
  filters !! "from_date" = Some v →
  malformed v →
  ¬ skipped_by_channel filters msg →
  raises (msg_passes filters msg).
Proof.
  intros Hfrom Hv Hchan. unfold msg_passes.
  unfold skipped_by_channel in Hchan.
  destruct (check_channel filters msg) as [[|]|e]; [|done|by exists e].
  rewrite and_then_true_l. apply raises_bind.
  unfold check_dates. rewrite Hfrom.
  destruct (local_time (ts msg)) as [d|e]; simpl.
  - destruct (check_from_malformed d v Hv) as [e ->].
    destruct (filters !! "to_date"); by exists e.
  - destruct (filters !! "to_date"); by exists e.
Qed.

(** The same for [to_date], for a message that also gets past the lower
    bound. *)
Lemma malformed_to_raises filters msg (v : value) :
  filters !! "to_date" = Some v →
  malformed v →
  ¬ skipped_by_channel filters msg →
  ¬ skipped_by_from filters msg →
  raises (msg_passes filters msg).
Proof.
  intros Hto Hv Hchan Hlow. unfold msg_passes.
  unfold skipped_by_channel in Hchan.
  destruct (check_channel filters msg) as [[|]|e]; [|done|by exists e].
  rewrite and_then_true_l. apply raises_bind.
  unfold check_dates, skipped_by_from in *. rewrite Hto.
  destruct (local_time (ts msg)) as [d|e]; simpl.
  - destruct (check_to_malformed d v Hv) as [e He].
    destruct (filters !! "from_date") as [w|]; simpl.
    + destruct (check_from d w) as [[|]|e'] eqn:Hw; simpl.
      * rewrite He. by exists e.
      * destruct Hlow. by exists w, d.
      * by exists e'.
    + rewrite He. by exists e.
  - destruct (filters !! "from_date"); by exists e.
Qed.

Lemma skipped_early_not_kept filters msg :
  skipped_early filters msg → msg_passes filters msg = Ok false.
Proof.
  unfold msg_passes.
  intros [Hchan|[Hchan (w & d & Hfrom & Hd & Hw)]].
  - unfold skipped_by_channel in Hchan. by rewrite Hchan.
  - rewrite Hchan, and_then_true_l. unfold check_dates.
    rewrite Hfrom, Hd. simpl. by rewrite Hw.
Qed.

(** C9, as the code has it: the bounds are parsed inside the loop, once a
    message has got that far.  A malformed [from_date] raises as soon as
    one message is not skipped by the channel filter, a malformed [to_date]
    as soon as one message is skipped neither by the channel filter nor by
    the lower bound.  When every message is skipped before that, the result
    is the empty list, whatever the bounds. *)
Theorem malformed_bound_raises data filters (v : value) :
  malformed v →
  (filters !! "from_date" = Some v →
   Exists (λ msg, ¬ skipped_by_channel filters msg) (messages_of data) →
   raises (query_messages data filters))
  ∧ (filters !! "to_date" = Some v →
     Exists (λ msg, ¬ skipped_by_channel filters msg
                    ∧ ¬ skipped_by_from filters msg) (messages_of data) →
     raises (query_messages data filters))
  ∧ (Forall (skipped_early filters) (messages_of data) →
     query_messages data filters = Ok []).
Proof.
  intros Hv. split; [|split].
  - intros Hfrom Hex. apply query_loop_raises.
    eapply Exists_impl; [exact Hex|]. simpl.
    intros msg Hchan. by eapply malformed_from_raises.
  - intros Hto Hex. apply query_loop_raises.
    eapply Exists_impl; [exact Hex|]. simpl.
    intros msg [Hchan Hlow]. by eapply malformed_to_raises.
  - intros Hall. unfold query_messages.
    rewrite (query_loop_filter filters (λ _, false)).
    + by rewrite filter_none.
    + rewrite Forall_forall in Hall. intros msg Hin.
      by apply skipped_early_not_kept, Hall.
Qed.

(** C10: [get_channel_stats] called without [from_date] and [to_date] on a
    dataset that has a message answers with the error text: both bounds are
    passed on as [None], and the first message raises. *)
Theorem channel_stats_without_dates_fails data arguments :
  messages_of data ≠ [] →
  arguments !! "from_date" = None →
  arguments !! "to_date" = None →
  ∃ e, call_tool_get_channel_stats data arguments = ErrorText e.
Proof.
  intros Hne Hfrom Hto. unfold call_tool_get_channel_stats.
  rewrite Hfrom, Hto. simpl.
  set (filters := <["to_date" := VNone]> (<["from_date" := VNone]> ∅)).
  assert (Hraise : raises (query_messages data filters)).
  { apply query_loop_raises. unfold messages_of in Hne.
    destruct (default [] (all_messages data)) as [|msg rest]; [done|].
    left. apply malformed_from_raises with VNone;
      [done|by exists TypeError|by unfold skipped_by_channel, check_channel]. }
  destruct Hraise as [e ->]. by exists e.
Qed.

Lemma slice_upto_nonneg {A : Type} (n : Z) (l : list A) :
  0 ≤ n → slice_upto n l = take (Z.to_nat n) l.
Proof. intros. unfold slice_upto. by rewrite (proj2 (Z.leb_le 0 n)). Qed.

(** C8, as the code has it: for a non-negative integer [limit] (50 when
    the argument is missing) the tool keeps the first [limit] messages of
    the fully filtered sequence; the filter sees the whole dataset and the
    request without its [limit].  The request is one of filter fields: no
    argument is named [data], the positional parameter of
    [query_messages]. *)
Theorem limit_after_filtering data arguments (n : Z) :
  default (VInt 50) (arguments !! "limit") = VInt n →
  0 ≤ n →
  arguments !! "data" = None →
  call_tool_query_messages data arguments
  = guarded (take (Z.to_nat n)
               <$> query_messages data (delete "limit" arguments)).
Proof.
  intros Hlimit Hn Hdata. unfold call_tool_query_messages.
  rewrite Hlimit, lookup_delete_ne, Hdata by done.
  rewrite bool_decide_eq_false_2 by (by intros [? ?]).
  destruct (query_messages data (delete "limit" arguments)); simpl; [|done].
  by rewrite slice_upto_nonneg.
Qed.

End Dispatcher.

(** ** Channel statistics *)

Section Counting.
Implicit Types (d : list (string * Z)) (k c : string) (channels : list string).

Lemma dict_set_keys_old d k (v : Z) :
  k ∈ d.*1 → (dict_set d k v).*1 = d.*1.
Proof.
  induction d as [|[k' v'] d IH]; cbn [dict_set fmap list_fmap fst].
  - by rewrite elem_of_nil.
  - rewrite elem_of_cons. intros Hin.
    destruct (bool_decide_reflect (k' = k)) as [Hk|Hk];
      cbn [fmap list_fmap fst]; [done|].
    f_equal. apply IH. by destruct Hin as [->|Hin].
Qed.

Lemma dict_set_keys_new d k (v : Z) :
  k ∉ d.*1 → (dict_set d k v).*1 = d.*1 ++ [k].
Proof.
  induction d as [|[k' v'] d IH]; cbn [dict_set fmap list_fmap fst].
  - done.
  - rewrite not_elem_of_cons. intros [Hne Hin].
    rewrite bool_decide_eq_false_2 by done. cbn [fmap list_fmap fst app].
    f_equal. by apply IH.
Qed.

Lemma dict_get_set d k (v : Z) k' (dflt : Z) :
  dict_get (dict_set d k v) k' dflt
  = if bool_decide (k = k') then v else dict_get d k' dflt.
Proof.
  induction d as [|[k0 v0] d IH]; simpl.
  - done.
  - destruct (bool_decide_reflect (k0 = k)) as [->|Hk0]; simpl.
    + by repeat case_bool_decide.
    + rewrite IH. repeat case_bool_decide; congruence.
Qed.

Lemma dict_by_keys d :
  NoDup d.*1 → d = (λ k, (k, dict_get d k 0)) <$> d.*1.
Proof.
  induction d as [|[k v] d IH]; [done|]. simpl.
  rewrite NoDup_cons. intros [Hk Hnd].
  rewrite bool_decide_eq_true_2 by done. f_equal.
  rewrite (IH Hnd) at 1. apply list_fmap_ext. intros i k' Hk'.
  rewrite bool_decide_eq_false_2; [done|].
  intros ->. apply Hk. by eapply list_elem_of_lookup_2.
Qed.

Lemma occurrences_snoc c channels x :
  occurrences c (channels ++ [x])
  = occurrences c channels + (if bool_decide (x = c) then 1 else 0).
Proof. induction channels as [|y channels IH]; simpl; [|rewrite IH]; lia. Qed.

Lemma first_index_app_l c channels channels' :
  c ∈ channels →
  first_index c (channels ++ channels') = first_index c channels.
Proof.
  induction channels as [|x channels IH]; simpl; [by rewrite elem_of_nil|].
  rewrite elem_of_cons. intros Hin. case_bool_decide as Hx; [done|].
  f_equal. apply IH. by destruct Hin as [->|Hin].
Qed.

Lemma first_index_snoc_new c channels :
  c ∉ channels → first_index c (channels ++ [c]) = length channels.
Proof.
  induction channels as [|x channels IH]; simpl.
  - by rewrite bool_decide_eq_true_2.
  - rewrite not_elem_of_cons. intros [Hne Hin].
    rewrite bool_decide_eq_false_2 by done. by rewrite IH.
Qed.

Lemma first_index_lt c channels :
  c ∈ channels → (first_index c channels < length channels)%nat.
Proof.
  induction channels as [|x channels IH]; simpl; [by rewrite elem_of_nil|].
  rewrite elem_of_cons. intros Hin. case_bool_decide as Hx; [lia|].
  apply Nat.succ_lt_mono in IH; [done|]. by destruct Hin as [->|Hin].
Qed.

(** The relation may be exchanged for one that agrees with it on the
    elements of the list. *)
Lemma StronglySorted_weaken {A : Type} (R R' : relation A) (l : list A) :
  (∀ x y, x ∈ l → y ∈ l → R x y → R' x y) →
  StronglySorted R l → StronglySorted R' l.
Proof.
  induction l as [|x l IH]; intros HR; [constructor|].
  rewrite !StronglySorted_cons, !Forall_forall. intros [Hx Hl]. split.
  - intros y Hy. apply HR; [by left|by right|by apply Hx].
  - apply IH; [|done]. intros y z Hy Hz. apply HR; by right.
Qed.

Lemma StronglySorted_irrefl_NoDup {A : Type} (R : relation A) (l : list A) :
  (∀ x, ¬ R x x) → StronglySorted R l → NoDup l.
Proof.
  intros Hirr. induction l as [|x l IH]; [constructor|].
  rewrite StronglySorted_cons, Forall_forall, NoDup_cons. intros [Hx Hl].
  split; [|by apply IH]. intros Hin. by apply (Hirr x), Hx.
Qed.

(** The dictionary built by the counting loop: its keys are the channels
    met, in the order they were first met, and each value is the number of
    occurrences. *)
Lemma tally_spec channels :
  let d := foldl tally [] channels in
  (∀ k, k ∈ d.*1 ↔ k ∈ channels)
  ∧ StronglySorted (seen_before channels) d.*1
  ∧ (∀ k, dict_get d k 0 = occurrences k channels).
Proof.
  induction channels as [|c channels IH] using rev_ind; simpl.
  - split; [done|]. split; [constructor|done].
  - destruct IH as (Hkeys & Hsorted & Hget).
    rewrite foldl_snoc. set (d := foldl tally [] channels) in *.
    assert (get_step : ∀ k, dict_get (tally d c) k 0
                            = occurrences k (channels ++ [c])).
    { intros k. unfold tally.
      rewrite dict_get_set, occurrences_snoc, <- !Hget.
      case_bool_decide; [by subst|lia]. }
    unfold tally.
    destruct (decide (c ∈ d.*1)) as [Hin|Hin];
      [rewrite dict_set_keys_old by done|rewrite dict_set_keys_new by done];
      (split; [|split]).
    + intros k. rewrite elem_of_app, list_elem_of_singleton, <- Hkeys.
      split; [by left|by intros [?| ->]].
    + eapply StronglySorted_weaken; [|exact Hsorted].
      intros x y Hx Hy. unfold seen_before.
      by rewrite !first_index_app_l by (by apply Hkeys).
    + apply get_step.
    + intros k. by rewrite !elem_of_app, !list_elem_of_singleton, <- Hkeys.
    + apply StronglySorted_app_2; [| |repeat constructor].
      * intros x y Hx ->%list_elem_of_singleton. unfold seen_before.
        rewrite first_index_app_l by (by apply Hkeys).
        rewrite first_index_snoc_new by (by rewrite <- Hkeys).
        by apply first_index_lt, Hkeys.
      * eapply StronglySorted_weaken; [|exact Hsorted].
        intros x y Hx Hy. unfold seen_before.
        by rewrite !first_index_app_l by (by apply Hkeys).
    + apply get_step.
Qed.

Lemma seen_before_irrefl channels c : ¬ seen_before channels c c.
Proof. unfold seen_before. lia. Qed.

Lemma count_by_channel_tally (messages : list message) :
  count_by_channel messages = foldl tally [] (channel_of <$> messages).
Proof. unfold count_by_channel. by rewrite foldl_fmap. Qed.

End Counting.

Section Sorting.
Implicit Types (l : list (string * Z)) (x y : string * Z).
Implicit Types (channels : list string).

Lemma insert_desc_perm x l : insert_desc x l ≡ₚ x :: l.
Proof.
  induction l as [|y l IH]; simpl; [done|].
  destruct (x.2 <? y.2); [|done].
  by rewrite IH, Permutation_swap.
Qed.

Lemma sorted_desc_perm l : sorted_desc l ≡ₚ l.
Proof.
  induction l as [|x l IH]; simpl; [done|].
  by rewrite insert_desc_perm, IH.
Qed.

(** Inserting an item that came before every item of a sorted list keeps
    the list sorted: the item goes in front of the items of equal count. *)
Lemma insert_desc_sorted channels x l :
  Forall (λ y, seen_before channels x.1 y.1) l →
  StronglySorted (stats_before channels) l →
  StronglySorted (stats_before channels) (insert_desc x l).
Proof.
  induction l as [|y l IH]; simpl; intros Hx Hl.
  - repeat constructor.
  - apply Forall_cons in Hx as [Hxy Hx].
    apply StronglySorted_cons in Hl as [Hy Hl].
    destruct (Z.ltb_spec x.2 y.2) as [Hlt|Hge].
    + apply StronglySorted_cons. split; [|by apply IH].
      rewrite insert_desc_perm. constructor; [by left|done].
    + apply StronglySorted_cons. split; [|by apply StronglySorted_cons].
      assert (Hyx : stats_before channels x y).
      { unfold stats_before. destruct (decide (x.2 = y.2)); [by right|].
        left. lia. }
      constructor; [done|].
      rewrite Forall_forall in Hx, Hy |- *. intros z Hz.
      specialize (Hx z Hz). specialize (Hy z Hz).
      unfold stats_before in *.
      destruct (decide (x.2 = z.2)); [by right|]. left. lia.
Qed.

(** Stability: items given in order of first occurrence come out by
    decreasing count, ties in order of first occurrence. *)
Lemma sorted_desc_sorted channels l :
  StronglySorted (λ x y, seen_before channels x.1 y.1) l →
  StronglySorted (stats_before channels) (sorted_desc l).
Proof.
  induction l as [|x l IH]; simpl; [constructor|].
  rewrite StronglySorted_cons. intros [Hx Hl].
  apply insert_desc_sorted; [|by apply IH].
  by rewrite sorted_desc_perm.
Qed.

End Sorting.

Section ChannelStats.
Implicit Types (messages : list message).

Lemma count_by_channel_keys messages :
  let d := count_by_channel messages in
  let channels := channel_of <$> messages in
  NoDup d.*1
  ∧ d = (λ c, (c, occurrences c channels)) <$> d.*1
  ∧ (∀ c, c ∈ d.*1 ↔ c ∈ channels)
  ∧ StronglySorted (λ x y, seen_before channels x.1 y.1) d.
Proof.
  intros d channels. unfold d. rewrite count_by_channel_tally.
  fold channels. destruct (tally_spec channels) as (Hkeys & Hsorted & Hget).
  set (t := foldl tally [] channels) in *.
  assert (Hnd : NoDup t.*1).
  { eapply StronglySorted_irrefl_NoDup; [|exact Hsorted].
    apply seen_before_irrefl. }
  assert (Ht : t = (λ c, (c, occurrences c channels)) <$> t.*1).
  { rewrite (dict_by_keys t Hnd) at 1. apply list_fmap_ext.
    intros _ c _. by rewrite Hget. }
  split; [done|]. split; [done|]. split; [done|].
  rewrite Ht. eapply StronglySorted_fmap; [|exact Hsorted]. done.
Qed.

(** C7: the statistics have one pair per channel met (a message without
    [channel_name] counting under ["unknown"]), each with the number of
    messages of that channel, ordered by decreasing count and, among equal
    counts, by first occurrence of the channel in the input; channels
    a, b, a give (a, 2), (b, 1). *)
Theorem channel_stats_sorted_counts :
  (∀ messages,
      let channels := channel_of <$> messages in
      let stats := channel_stats messages in
      NoDup stats.*1
      ∧ (∀ c n, (c, n) ∈ stats ↔ c ∈ channels ∧ n = occurrences c channels)
      ∧ StronglySorted (stats_before channels) stats)
  ∧ (∀ (m1 m2 m3 : message) (a b : string),
      a ≠ b →
      channel_of m1 = a → channel_of m2 = b → channel_of m3 = a →
      channel_stats [m1; m2; m3] = [(a, 2); (b, 1)])
  ∧ (∀ msg, channel_name msg = None → channel_of msg = "unknown").
Proof.
  split; [|split].
  - intros messages channels stats. unfold stats, channel_stats.
    destruct (count_by_channel_keys messages) as (Hnd & Hd & Hkeys & Hsorted).
    fold channels in Hd, Hkeys, Hsorted.
    set (d := count_by_channel messages) in *.
    split; [by rewrite sorted_desc_perm|]. split.
    + intros c n. rewrite sorted_desc_perm, Hd, list_elem_of_fmap.
      setoid_rewrite Hkeys. split.
      * by intros (c' & [= -> ->] & Hin).
      * intros [Hin ->]. by exists c.
    + by apply sorted_desc_sorted.
  - intros m1 m2 m3 a b Hab H1 H2 H3. unfold channel_stats.
    rewrite count_by_channel_tally. cbn [fmap list_fmap].
    rewrite H1, H2, H3. cbn [foldl]. unfold tally.
    cbn [dict_get dict_set].
    rewrite !(bool_decide_eq_false_2 (a = b)) by done.
    cbn [dict_get dict_set].
    rewrite !(bool_decide_eq_true_2 (a = a)) by done.
    reflexivity.
  - intros msg Hnone. unfold channel_of. by rewrite Hnone.
Qed.

End ChannelStats.

(** ** The functions run on the reference runtime *)

Section Examples.
#[local] Existing Instance Reference.runtime.
Import Sample.

(** Decide membership in a list given by its elements. *)
Ltac by_cases_on Hin :=
  repeat (apply elem_of_cons in Hin as [->|Hin]; [reflexivity|]);
  by apply elem_of_nil in Hin.

Example float_of_ts : py_float "1704067200.000100" = Ok 1704067200000100.
Proof. reflexivity. Qed.

Example midnight_2024 : fromisoformat "2024-01-01" = Ok (Naive 1704067200000000).
Proof. reflexivity. Qed.

Example midnight_epoch : fromisoformat "1970-01-01" = Ok (Naive 0).
Proof. reflexivity. Qed.

Example no_such_day : fromisoformat "2024-02-30" = Raise ValueError.
Proof. reflexivity. Qed.

Example lower_mixed : lower "InTro-7" = "intro-7".
Proof. reflexivity. Qed.

Example category_intro :
  query_messages data {["category" := VStr "INTRO"]} = Ok [jan31].
Proof. reflexivity. Qed.

(** C1 fails as stated: an unknown category returns a result. *)
Lemma unknown_category_returns :
  ({["category" := VStr "bogus"]} : gmap string value) !! "category"
  = Some (VStr "bogus")
  ∧ category_map !! lower "bogus" = None
  ∧ query_messages data {["category" := VStr "bogus"]}
    = Ok [before; jan1; inside; jan31; after].
Proof. repeat split; reflexivity. Qed.

(** The category [bogus] on the sample dataset. *)
Lemma unknown_category_is_ignored_witness :
  ({["category" := VStr "bogus"]} : gmap string value) !! "category"
  = Some (VStr "bogus")
  ∧ category_map !! lower "bogus" = None
  ∧ query_messages data {["category" := VStr "bogus"]}
    = query_messages data (delete "category" {["category" := VStr "bogus"]}).
Proof.
  split; [reflexivity|]. split; [reflexivity|].
  apply (unknown_category_is_ignored data _ "bogus"); reflexivity.
Defined.

(** A request whose only key is none of the filter fields. *)
Lemma empty_filter_returns_all_witness :
  all_absent {["verbose" := VBool true]}
  ∧ query_messages data {["verbose" := VBool true]}
    = Ok [before; jan1; inside; jan31; after].
Proof.
  assert (Habs : all_absent {["verbose" := VBool true]}).
  { intros k Hk. unfold filter_keys in Hk. by_cases_on Hk. }
  split; [exact Habs|].
  exact (empty_filter_returns_all data _ Habs).
Defined.

(** January 2024 on the sample dataset: the messages at the two midnights
    are kept, those one microsecond outside are dropped. *)
Lemma date_range_inclusive_witness :
  bound_at january "from_date" (Some 1704067200000000)
  ∧ bound_at january "to_date" (Some 1706659200000000)
  ∧ local_time (ts jan1) = Ok 1704067200000000
  ∧ check_dates january jan1 = Ok true
  ∧ dates_only january
  ∧ (∀ m, m ∈ messages_of data → local_time (ts m) = Ok (when m))
  ∧ query_messages data january = Ok [jan1; inside; jan31].
Proof.
  assert (Honly : dates_only january).
  { intros k Hk. by_cases_on Hk. }
  assert (Hlo : bound_at january "from_date" (Some 1704067200000000)).
  { by apply bound_present with "2024-01-01". }
  assert (Hhi : bound_at january "to_date" (Some 1706659200000000)).
  { by apply bound_present with "2024-01-31". }
  assert (Hwhen : ∀ m, m ∈ messages_of data → local_time (ts m) = Ok (when m)).
  { intros m Hm. unfold messages_of, data in Hm. simpl in Hm. by_cases_on Hm. }
  destruct (date_range_inclusive january _ _ Hlo Hhi) as [Hone Hall].
  split; [exact Hlo|]. split; [exact Hhi|]. split; [reflexivity|].
  split; [exact (Hone jan1 _ eq_refl)|].
  split; [exact Honly|]. split; [exact Hwhen|].
  exact (Hall data when Honly Hwhen).
Defined.

(** C4 fails as stated: a record without [ts] passes a lower bound set
    before 1970 and fails an upper bound set before 1970. *)
Lemma missing_ts_passes_early_bound :
  ts undated = None
  ∧ member_ts newcomer = None
  ∧ query_messages undated_data {["from_date" := VStr "1960-01-01"]}
    = Ok [undated]
  ∧ query_messages undated_data {["to_date" := VStr "1960-01-01"]} = Ok []
  ∧ get_new_members undated_data (VStr "1960-01-01") VNone = Ok [newcomer]
  ∧ get_new_members undated_data VNone (VStr "1960-01-01") = Ok [].
Proof. repeat split; reflexivity. Qed.

(** On the reference runtime epoch 0 is local time 0. *)
Lemma missing_ts_is_epoch_witness :
  py_float "0" = Ok 0
  ∧ fromtimestamp 0 = Ok 0
  ∧ msg_passes {["from_date" := VStr "2024-01-01"]} undated
    = Ok (in_range (Some 1704067200000000) 0 None)
  ∧ member_passes VNone (VStr "2024-01-31") newcomer
    = Ok (in_range None 0 (Some 1706659200000000)).
Proof.
  split; [reflexivity|]. split; [reflexivity|].
  destruct (@missing_ts_is_epoch Reference.runtime 0 0 eq_refl eq_refl)
    as [Hmsg Hmember].
  split.
  - apply Hmsg.
    + reflexivity.
    + intros k Hk. by_cases_on Hk.
    + by apply bound_present with "2024-01-01".
    + by apply bound_absent.
  - apply Hmember.
    + reflexivity.
    + by apply member_bound_falsy.
    + by apply member_bound_date.
Defined.

(** The sample dataset split by [has_replies]. *)
Lemma has_replies_partition_witness :
  Forall (λ m, 0 ≤ replies m) (messages_of data)
  ∧ query_messages data {["has_replies" := VBool true]} = Ok [jan1; jan31]
  ∧ query_messages data {["has_replies" := VBool false]}
    = Ok [before; inside; after]
  ∧ query_messages data {["has_replies" := VBool false]}
    = Ok (List.filter (λ m, replies m =? 0) (messages_of data)).
Proof.
  assert (Hnonneg : Forall (λ m, 0 ≤ replies m) (messages_of data)).
  { repeat constructor; by vm_compute. }
  destruct (has_replies_partition data) as (Htrue & Hfalse & Hzero).
  split; [exact Hnonneg|]. split; [exact Htrue|]. split; [exact Hfalse|].
  exact (Hzero Hnonneg).
Defined.

(** The messages of one channel, in their original order. *)
Lemma result_is_subsequence_witness :
  query_messages data in_discussion = Ok [jan1; inside]
  ∧ [jan1; inside] `sublist_of` messages_of data
  ∧ [jan1; inside] = List.filter (appended in_discussion) (messages_of data).
Proof.
  split; [reflexivity|].
  exact (result_is_subsequence data in_discussion [jan1; inside] eq_refl).
Defined.

(** Channels a, b, a with the names of the sample messages. *)
Lemma channel_stats_sorted_counts_witness :
  "05-asks" ≠ "02-discussion"
  ∧ channel_of before = "05-asks"
  ∧ channel_of jan1 = "02-discussion"
  ∧ channel_of after = "05-asks"
  ∧ channel_stats [before; jan1; after] = [("05-asks", 2); ("02-discussion", 1)].
Proof.
  assert (Hne : "05-asks" ≠ "02-discussion") by discriminate.
  split; [exact Hne|]. do 3 (split; [reflexivity|]).
  destruct channel_stats_sorted_counts as (_ & Haba & _).
  exact (Haba before jan1 after _ _ Hne eq_refl eq_refl eq_refl).
Defined.

Example channel_stats_ties :
  channel_stats [jan31; before; jan1; after; inside]
  = [("05-asks", 2); ("02-discussion", 2); ("07-intros", 1)].
Proof. reflexivity. Qed.

Example channel_stats_in_january :
  call_tool_get_channel_stats data january
  = Content [("02-discussion", 2); ("07-intros", 1)].
Proof. reflexivity. Qed.

(** C8 fails as stated: with [limit] -1 and three matches the tool returns
    two messages, the matches without the last one. *)
Lemma negative_limit_drops_from_end :
  (<["limit" := VInt (-1)]> {["channel" := VStr "asks"]}
    : gmap string value) !! "limit" = Some (VInt (-1))
  ∧ query_messages asks {["channel" := VStr "asks"]} = Ok [before; after; late]
  ∧ call_tool_query_messages asks
      (<["limit" := VInt (-1)]> {["channel" := VStr "asks"]})
    = Content [before; after]
  ∧ call_tool_query_messages asks
      (<["limit" := VInt (-1)]> {["channel" := VStr "asks"]})
    ≠ Content (take (Z.to_nat (-1)) [before; after; late]).
Proof. repeat split; try reflexivity. discriminate. Qed.

(** Three matches and [limit] 2: the first two matches, although the first
    two messages of the dataset hold only one match. *)
Lemma limit_after_filtering_witness :
  default (VInt 50) ((<["limit" := VInt 2]> {["channel" := VStr "asks"]}
                      : gmap string value) !! "limit") = VInt 2
  ∧ 0 ≤ 2
  ∧ (<["limit" := VInt 2]> {["channel" := VStr "asks"]}
      : gmap string value) !! "data" = None
  ∧ query_messages asks {["channel" := VStr "asks"]} = Ok [before; after; late]
  ∧ call_tool_query_messages asks
      (<["limit" := VInt 2]> {["channel" := VStr "asks"]})
    = Content [before; after].
Proof.
  split; [reflexivity|]. split; [lia|]. do 2 (split; [reflexivity|]).
  exact (limit_after_filtering asks
           (<["limit" := VInt 2]> {["channel" := VStr "asks"]}) 2
           eq_refl ltac:(lia) eq_refl).
Defined.

(** C9 fails as stated: a malformed bound goes unnoticed when no message
    gets as far as its parse, and the result is the one without the bound. *)
Lemma malformed_bound_unnoticed :
  messages_of data ≠ []
  ∧ malformed (VStr "next week")
  ∧ query_messages data
      (<["from_date" := VStr "next week"]> {["channel" := VStr "general"]})
    = Ok []
  ∧ query_messages data {["channel" := VStr "general"]} = Ok []
  ∧ query_messages data
      (<["to_date" := VStr "next week"]> {["from_date" := VStr "2025-01-01"]})
    = Ok []
  ∧ query_messages data {["from_date" := VStr "2025-01-01"]} = Ok [].
Proof.
  split; [discriminate|]. split; [by exists ValueError|].
  repeat split; reflexivity.
Qed.

(** A malformed [from_date] met by a message of the channel, and missed when
    no message is of the channel. *)
Lemma malformed_bound_raises_witness :
  malformed (VStr "next week")
  ∧ (<["from_date" := VStr "next week"]> in_discussion
      : gmap string value) !! "from_date" = Some (VStr "next week")
  ∧ Exists (λ m, ¬ skipped_by_channel
                   (<["from_date" := VStr "next week"]> in_discussion) m)
      (messages_of data)
  ∧ raises (query_messages data
              (<["from_date" := VStr "next week"]> in_discussion))
  ∧ Forall (skipped_early
              (<["from_date" := VStr "next week"]> {["channel" := VStr "general"]}))
      (messages_of data)
  ∧ query_messages data
      (<["from_date" := VStr "next week"]> {["channel" := VStr "general"]})
    = Ok [].
Proof.
  assert (Hbad : malformed (VStr "next week")) by (by exists ValueError).
  assert (Hreach : Exists (λ m, ¬ skipped_by_channel
                   (<["from_date" := VStr "next week"]> in_discussion) m)
      (messages_of data)).
  { right. left. discriminate. }
  assert (Hskip : Forall (skipped_early
              (<["from_date" := VStr "next week"]> {["channel" := VStr "general"]}))
      (messages_of data)).
  { repeat constructor; by left. }
  split; [exact Hbad|]. split; [reflexivity|]. split; [exact Hreach|].
  split.
  - exact (proj1 (malformed_bound_raises data
             (<["from_date" := VStr "next week"]> in_discussion)
             (VStr "next week") Hbad) eq_refl Hreach).
  - split; [exact Hskip|].
    exact (proj2 (proj2 (malformed_bound_raises data
             (<["from_date" := VStr "next week"]> {["channel" := VStr "general"]})
             (VStr "next week") Hbad)) Hskip).
Defined.

Example malformed_from_date_error :
  query_messages data (<["from_date" := VStr "next week"]> in_discussion)
  = Raise ValueError.
Proof. reflexivity. Qed.

(** The tool called with no argument on the sample dataset. *)
Lemma channel_stats_without_dates_fails_witness :
  messages_of data ≠ []
  ∧ (∅ : gmap string value) !! "from_date" = None
  ∧ (∅ : gmap string value) !! "to_date" = None
  ∧ ∃ e, call_tool_get_channel_stats data ∅ = ErrorText e.
Proof.
  assert (Hne : messages_of data ≠ []) by discriminate.
  split; [exact Hne|]. do 2 (split; [reflexivity|]).
  exact (channel_stats_without_dates_fails data ∅ Hne eq_refl eq_refl).
Defined.

Example channel_stats_type_error :
  call_tool_get_channel_stats data ∅ = ErrorText TypeError.
Proof. reflexivity. Qed.

End Examples.

(** ** Typed requests: the filters as a conjunction *)

Lemma and_then_true_inv (a b : result bool) :
  a <&&> b = Ok true → a = Ok true ∧ b = Ok true.
Proof. destruct a as [[|]|e]; simpl; by intros. Qed.

Lemma lookup_put_eq (k : string) (o : option value) (m : gmap string value) :
  m !! k = None → put k o m !! k = o.
Proof. intros Hm. destruct o; simpl; [apply lookup_insert_eq|done]. Qed.

Lemma lookup_put_ne (k k' : string) (o : option value) (m : gmap string value) :
  k ≠ k' → put k o m !! k' = m !! k'.
Proof. intros Hne. destruct o; simpl; [by apply lookup_insert_ne|done]. Qed.

(** Each field of a typed request is found under its own key. *)
Lemma kwargs_lookups (s : filter_spec) :
  kwargs s !! "channel" = VStr <$> fs_channel s
  ∧ kwargs s !! "from_date" = VStr <$> fs_from_date s
  ∧ kwargs s !! "to_date" = VStr <$> fs_to_date s
  ∧ kwargs s !! "user" = VStr <$> fs_user s
  ∧ kwargs s !! "search_text" = VStr <$> fs_search_text s
  ∧ kwargs s !! "has_replies" = VBool <$> fs_has_replies s
  ∧ kwargs s !! "category" = VStr <$> fs_category s.
Proof.
  unfold kwargs.
  repeat split;
    rewrite ?lookup_put_ne by done;
    (rewrite lookup_put_eq; [done|]);
    by rewrite ?lookup_put_ne, ?lookup_empty by done.
Qed.

Lemma filter_sublist_impl {A : Type} (p q : A → bool) (l : list A) :
  (∀ x, p x = true → q x = true) →
  List.filter p l `sublist_of` List.filter q l.
Proof.
  intros Hpq. induction l as [|x l IH]; simpl; [constructor|].
  destruct (p x) eqn:Hp.
  - rewrite (Hpq x Hp). by constructor.
  - destruct (q x); [by constructor|done].
Qed.

Section TypedRequests.
Context `{Runtime}.
Implicit Types (filters : gmap string value) (msg : message) (data : dataset).
Implicit Types (s : filter_spec).

Lemma bound_at_kwargs_from s (lo : option Z) :
  reads_as (fs_from_date s) lo → bound_at (kwargs s) "from_date" lo.
Proof.
  destruct (kwargs_lookups s) as (_ & Hk & _).
  intros Hlo. inversion Hlo as [Hs Hz|str z Hstr Hs Hz]; subst.
  - apply bound_absent. by rewrite Hk, <- Hs.
  - apply bound_present with str; [|done]. by rewrite Hk, <- Hs.
Qed.

Lemma bound_at_kwargs_to s (hi : option Z) :
  reads_as (fs_to_date s) hi → bound_at (kwargs s) "to_date" hi.
Proof.
  destruct (kwargs_lookups s) as (_ & _ & Hk & _).
  intros Hhi. inversion Hhi as [Hs Hz|str z Hstr Hs Hz]; subst.
  - apply bound_absent. by rewrite Hk, <- Hs.
  - apply bound_present with str; [|done]. by rewrite Hk, <- Hs.
Qed.

Lemma check_dates_kwargs s (lo hi : option Z) (d : Z) msg :
  reads_as (fs_from_date s) lo →
  reads_as (fs_to_date s) hi →
  (fs_from_date s = None ∧ fs_to_date s = None) ∨ local_time (ts msg) = Ok d →
  check_dates (kwargs s) msg = Ok (in_range lo d hi).
Proof.
  intros Hlo Hhi [[Hfrom Hto]|Hd].
  - destruct (kwargs_lookups s) as (_ & Hkf & Hkt & _).
    unfold check_dates. rewrite Hkf, Hkt, Hfrom, Hto. simpl.
    rewrite Hfrom in Hlo. rewrite Hto in Hhi.
    by inversion Hlo; inversion Hhi.
  - by apply check_dates_in_range;
      [apply bound_at_kwargs_from|apply bound_at_kwargs_to|].
Qed.

Lemma msg_passes_kwargs s (lo hi : option Z) (d : Z) msg :
  reads_as (fs_from_date s) lo →
  reads_as (fs_to_date s) hi →
  (fs_from_date s = None ∧ fs_to_date s = None) ∨ local_time (ts msg) = Ok d →
  msg_passes (kwargs s) msg = Ok (spec_matches s lo hi d msg).
Proof.
  intros Hlo Hhi Hd. unfold msg_passes.
  rewrite (check_dates_kwargs s lo hi d msg Hlo Hhi Hd).
  unfold check_channel, check_user, check_search_text, check_has_replies,
    check_category.
  destruct (kwargs_lookups s) as (-> & _ & _ & -> & -> & -> & ->).
  unfold spec_matches, replies.
  destruct (fs_channel s), (fs_user s), (fs_search_text s),
    (fs_has_replies s), (fs_category s) as [c|]; simpl;
    try destruct (category_map !! lower c); simpl;
    repeat (case_match; simpl); done.
Qed.


End TypedRequests.

(** ** How requests compose *)

Section Composition.
Context `{Runtime}.
Implicit Types (filters : gmap string value) (msg : message) (data : dataset).

Lemma appended_true filters msg :
  appended filters msg = true ↔ msg_passes filters msg = Ok true.
Proof.
  unfold appended. destruct (msg_passes filters msg) as [[|]|e]; naive_solver.
Qed.

Lemma check_dates_delete filters (k : string) msg :
  check_dates filters msg = Ok true →
  check_dates (delete k filters) msg = Ok true.
Proof.
  unfold check_dates. rewrite !lookup_delete.
  destruct (filters !! "from_date") as [v|], (filters !! "to_date") as [w|];
    repeat case_decide; try done;
    destruct (local_time (ts msg)) as [d|e]; simpl; try done;
    intros Hd; try (by apply and_then_true_inv in Hd as [-> ?]);
    try (by apply and_then_true_inv in Hd as [? ->]).
Qed.

(** Without one of its fields a request still keeps what it kept. *)
Lemma msg_passes_delete filters (k : string) msg :
  msg_passes filters msg = Ok true →
  msg_passes (delete k filters) msg = Ok true.
Proof.
  unfold msg_passes. intros Hall.
  apply and_then_true_inv in Hall as [Hc Hall].
  apply and_then_true_inv in Hall as [Hd Hall].
  apply and_then_true_inv in Hall as [Hu Hall].
  apply and_then_true_inv in Hall as [Ht Hall].
  apply and_then_true_inv in Hall as [Hp Hg].
  rewrite (check_dates_delete _ _ _ Hd).
  revert Hc Hu Ht Hp Hg.
  unfold check_channel, check_user, check_search_text, check_has_replies,
    check_category.
  rewrite !lookup_delete.
  repeat case_decide; intros Hc Hu Ht Hp Hg;
    by rewrite ?Hc, ?Hu, ?Ht, ?Hp, ?Hg.
Qed.

(** X2: dropping a field from a request can only add messages: when both
    requests return, the result of the full request is a subsequence of the
    result of the request without the field. *)
Theorem dropping_a_field_keeps_messages data filters (k : string)
    (kept kept' : list message) :
  query_messages data filters = Ok kept →
  query_messages data (delete k filters) = Ok kept' →
  kept `sublist_of` kept'.
Proof.
  intros Hkept Hkept'.
  apply query_loop_appended in Hkept. apply query_loop_appended in Hkept'.
  rewrite Hkept, Hkept'. apply filter_sublist_impl.
  intros msg. rewrite !appended_true. apply msg_passes_delete.
Qed.

(** X3: filtering is idempotent: a result put through the same request again
    comes back unchanged. *)
Theorem query_is_idempotent data filters (kept : list message) :
  query_messages data filters = Ok kept →
  query_messages {| all_messages := Some kept; new_members := new_members data |}
    filters
  = Ok kept.
Proof.
  intros Hkept. apply query_loop_appended in Hkept.
  unfold query_messages. simpl.
  rewrite (query_loop_filter filters (λ _, true)); [by rewrite filter_all|].
  intros msg Hin. apply appended_true.
  rewrite Hkept in Hin. apply list_elem_of_In, filter_In in Hin.
  by destruct Hin.
Qed.

Lemma query_loop_same_outcomes filters filters' messages kept :
  (∀ msg keep, msg ∈ messages →
     msg_passes filters msg = Ok keep → msg_passes filters' msg = Ok keep) →
  query_loop filters messages [] = Ok kept →
  query_loop filters' messages [] = Ok kept.
Proof.
  revert kept. induction messages as [|msg rest IH]; intros kept Hsame; [done|].
  rewrite !query_loop_cons.
  destruct (msg_passes filters msg) as [keep|e] eqn:Hmsg; simpl; [|done].
  rewrite (Hsame msg keep) by (done || left). simpl.
  destruct (query_loop filters rest []) as [kept0|e] eqn:Hrest; simpl; [|done].
  rewrite (IH kept0); [done| |done].
  intros m b Hin. apply Hsame. by right.
Qed.

(** X4: a known category is the channel filter of its marker: whenever the
    request with the category returns, the request with the marker as
    [channel] in its place returns the same messages. *)
Theorem category_is_channel_marker data filters (c marker : string)
    (kept : list message) :
  filters !! "channel" = None →
  filters !! "category" = Some (VStr c) →
  category_map !! lower c = Some marker →
  query_messages data filters = Ok kept →
  query_messages data (<["channel" := VStr marker]> (delete "category" filters))
  = Ok kept.
Proof.
  intros Hchan Hcat Hmarker. apply query_loop_same_outcomes.
  intros msg keep _. unfold_checks.
  rewrite lookup_insert_eq, !lookup_insert_ne by done.
  rewrite lookup_delete_eq, !lookup_delete_ne by done.
  rewrite Hchan, Hcat. simpl. rewrite Hmarker.
  destruct (contains marker (default "" (channel_name msg)));
    destruct (match filters !! "from_date" with
              | Some _ => _ | None => _ end) as [[|]|?]; simpl; try done;
    destruct (match filters !! "user" with
              | Some _ => _ | None => _ end) as [[|]|?]; simpl; try done;
    destruct (match filters !! "search_text" with
              | Some _ => _ | None => _ end) as [[|]|?]; simpl; try done;
    destruct (match filters !! "has_replies" with
              | Some _ => _ | None => _ end) as [[|]|?]; simpl; done.
Qed.

End Composition.

(** ** Ill-typed fields and empty snapshots *)

Section EdgeCases.
Context `{Runtime}.
Implicit Types (filters arguments : gmap string value) (msg : message).
Implicit Types (data : dataset).

Lemma query_loop_first_raises filters msg rest (e : exn) :
  msg_passes filters msg = Raise e →
  query_loop filters (msg :: rest) [] = Raise e.
Proof. intros Hmsg. simpl. by rewrite Hmsg. Qed.

(** X5: a field that should be a string and is not makes the first message
    raise: [TypeError] for [channel] and for a date bound (once the [ts] of
    the message is read), [AttributeError] for [user], [search_text] and
    [category], which are lower-cased first. *)
Theorem ill_typed_field_raises data msg (rest : list message) (v : value) :
  messages_of data = msg :: rest →
  not_str v →
  query_messages data {["channel" := v]} = Raise TypeError
  ∧ query_messages data {["user" := v]} = Raise AttributeError
  ∧ query_messages data {["search_text" := v]} = Raise AttributeError
  ∧ query_messages data {["category" := v]} = Raise AttributeError
  ∧ (∀ d, local_time (ts msg) = Ok d →
       query_messages data {["from_date" := v]} = Raise TypeError
       ∧ query_messages data {["to_date" := v]} = Raise TypeError).
Proof.
  intros Hdata Hv. unfold query_messages. unfold messages_of in Hdata.
  rewrite Hdata.
  split; [|split; [|split; [|split; [|intros d Hd; split]]]];
    apply query_loop_first_raises; unfold_checks;
    rewrite ?lookup_singleton_eq, ?lookup_singleton_ne by done;
    rewrite ?Hd; by destruct v.
Qed.

(** X6: [has_replies] is compared with [!=] and never raises: [None] or a
    string differs from both booleans and drops every message, while the
    integers 1 and 0 act as [True] and [False]. *)
Theorem has_replies_loose_values data :
  (∀ v, v = VNone ∨ (∃ s, v = VStr s) →
     query_messages data {["has_replies" := v]} = Ok [])
  ∧ query_messages data {["has_replies" := VInt 1]}
    = query_messages data {["has_replies" := VBool true]}
  ∧ query_messages data {["has_replies" := VInt 0]}
    = query_messages data {["has_replies" := VBool false]}.
Proof.
  split; [|split].
  - intros v Hv. unfold query_messages.
    rewrite (query_loop_filter _ (λ _, false)); [by rewrite filter_none|].
    intros msg _. unfold_checks.
    rewrite lookup_singleton_eq, !lookup_singleton_ne by done.
    by destruct Hv as [->|[s ->]].
  - apply query_loop_ext. intros msg _. unfold_checks.
    rewrite !lookup_singleton_eq, !lookup_singleton_ne by done. simpl.
    by destruct (0 <? default 0 (reply_count msg)).
  - apply query_loop_ext. intros msg _. unfold_checks.
    rewrite !lookup_singleton_eq, !lookup_singleton_ne by done. simpl.
    by destruct (0 <? default 0 (reply_count msg)).
Qed.

(** X7: on a snapshot without messages nothing is parsed, so nothing raises:
    every request, well-formed or not, returns the empty list and the
    statistics tool answers with empty statistics, dates or no dates;
    likewise for the members. *)
Theorem empty_snapshot_never_raises data filters arguments (from_date to_date : value) :
  (messages_of data = [] →
   query_messages data filters = Ok []
   ∧ call_tool_get_channel_stats data arguments = Content [])
  ∧ (default [] (new_members data) = [] →
     get_new_members data from_date to_date = Ok []).
Proof.
  split.
  - unfold messages_of, call_tool_get_channel_stats, query_messages.
    by intros ->.
  - unfold get_new_members. intros ->.
    by destruct (negb (truthy from_date) && negb (truthy to_date)).
Qed.

End EdgeCases.

(** ** The members *)

Section Members.
Context `{Runtime}.
Implicit Types (from_date to_date : value) (m : member).
Implicit Types (members results : list member) (data : dataset).

Lemma members_loop_acc from_date to_date members results :
  members_loop from_date to_date members results
  = (results ++.) <$> members_loop from_date to_date members [].
Proof.
  revert results. induction members as [|m rest IH]; intros results; simpl.
  - by rewrite app_nil_r.
  - destruct (member_passes from_date to_date m) as [[|]|e]; simpl; [|done|done].
    rewrite (IH (results ++ [m])), (IH [m]).
    destruct (members_loop from_date to_date rest []); simpl; [|done].
    by rewrite <- app_assoc.
Qed.

Lemma members_loop_cons from_date to_date m rest :
  members_loop from_date to_date (m :: rest) []
  = keep ← member_passes from_date to_date m;
    kept ← members_loop from_date to_date rest [];
    Ok (if keep : bool then m :: kept else kept).
Proof.
  simpl. destruct (member_passes from_date to_date m) as [[|]|e]; simpl;
    [| |done].
  - rewrite members_loop_acc.
    by destruct (members_loop from_date to_date rest []).
  - by destruct (members_loop from_date to_date rest []).
Qed.

Lemma members_loop_filter from_date to_date (p : member → bool) members :
  (∀ m, m ∈ members → member_passes from_date to_date m = Ok (p m)) →
  members_loop from_date to_date members [] = Ok (List.filter p members).
Proof.
  induction members as [|m rest IH]; intros Hp; [done|].
  rewrite members_loop_cons, (Hp m) by left. simpl.
  rewrite IH by (intros; apply Hp; by right). simpl.
  by destruct (p m).
Qed.

(** The loop reads the [ts] of every member, kept or not. *)
Lemma members_loop_reads_all from_date to_date members kept :
  members_loop from_date to_date members [] = Ok kept →
  kept `sublist_of` members
  ∧ Forall (λ m, ∃ d, local_time (member_ts m) = Ok d) members.
Proof.
  revert kept. induction members as [|m rest IH]; intros kept.
  - simpl. intros [= <-]. split; constructor.
  - rewrite members_loop_cons.
    destruct (member_passes from_date to_date m) as [keep|e] eqn:Hm;
      simpl; [|done].
    destruct (members_loop from_date to_date rest []) as [kept'|e];
      simpl; [|done].
    intros [= <-]. destruct (IH kept' eq_refl) as [Hsub Hall]. split.
    + destruct keep; by constructor.
    + constructor; [|done]. unfold member_passes in Hm.
      destruct (local_time (member_ts m)) as [d|e]; [by exists d|done].
Qed.

Lemma member_passes_in_range from_date to_date m (lo hi : option Z) (d : Z) :
  member_bound from_date lo →
  member_bound to_date hi →
  local_time (member_ts m) = Ok d →
  member_passes from_date to_date m = Ok (in_range lo d hi).
Proof.
  intros Hlo Hhi Hd. unfold member_passes, in_range. rewrite Hd. simpl.
  destruct Hlo as [v Hv|s a Hs Ha], Hhi as [v' Hv'|s' b Hs' Hb]; simpl;
    rewrite ?Hv, ?Hv', ?(bool_decide_eq_false_2 _ Hs),
      ?(bool_decide_eq_false_2 _ Hs'); simpl;
    rewrite ?(check_from_naive _ _ _ Ha), ?(check_to_naive _ _ _ Hb);
    by rewrite ?and_then_ok, ?andb_true_r.
Qed.

(** X8: [get_new_members] returns exactly the members who joined between the
    two bounds, both ends included; a bound that is missing, [None] or the
    empty string is no bound, and without any bound the members come back
    unchanged, their [ts] not even read. *)
Theorem members_in_range data from_date to_date (lo hi : option Z)
    (when : member → Z) :
  member_bound from_date lo →
  member_bound to_date hi →
  (truthy from_date = false ∧ truthy to_date = false)
  ∨ (∀ m, m ∈ default [] (new_members data) →
       local_time (member_ts m) = Ok (when m)) →
  get_new_members data from_date to_date
  = Ok (List.filter (λ m, in_range lo (when m) hi) (default [] (new_members data)))
  ∧ (truthy from_date = false → truthy to_date = false →
     get_new_members data from_date to_date = Ok (default [] (new_members data))).
Proof.
  intros Hlo Hhi Hd.
  assert (Hnone : truthy from_date = false → truthy to_date = false →
     get_new_members data from_date to_date = Ok (default [] (new_members data))).
  { intros Hf Ht. unfold get_new_members. by rewrite Hf, Ht. }
  split; [|done].
  destruct (truthy from_date) eqn:Hf, (truthy to_date) eqn:Ht;
    try (destruct Hd as [[? ?]|Hd]; [done|];
         unfold get_new_members; rewrite Hf, Ht; simpl;
         apply members_loop_filter; intros m Hin;
         by apply member_passes_in_range; [..|apply Hd]).
  rewrite Hnone by done.
  assert (lo = None) as ->.
  { destruct Hlo as [|s z Hs]; [done|]. simpl in Hf.
    by rewrite bool_decide_eq_false_2 in Hf. }
  assert (hi = None) as ->.
  { destruct Hhi as [|s z Hs]; [done|]. simpl in Ht.
    by rewrite bool_decide_eq_false_2 in Ht. }
  unfold in_range. simpl. by rewrite filter_all.
Qed.

(** X9: whatever the bounds, a list of members that comes back is a subsequence
    of [new_members]. *)
Theorem members_result_is_subsequence data from_date to_date (kept : list member) :
  get_new_members data from_date to_date = Ok kept →
  kept `sublist_of` default [] (new_members data).
Proof.
  unfold get_new_members.
  destruct (negb (truthy from_date) && negb (truthy to_date)).
  - by intros [= <-].
  - intros Hkept. by apply members_loop_reads_all in Hkept as [? _].
Qed.

End Members.

(** ** More on the channel statistics *)

Section StatsTotals.
Implicit Types (d : list (string * Z)) (c : string).

Lemma total_count_tally d c : total_count (tally d c) = total_count d + 1.
Proof.
  unfold tally. induction d as [|[k v] d IH]; simpl; [lia|].
  case_bool_decide; simpl; [lia|]. rewrite IH. lia.
Qed.

Lemma total_count_perm d d' : d ≡ₚ d' → total_count d = total_count d'.
Proof. induction 1; simpl; lia. Qed.

Lemma dict_get_nonneg d c :
  Forall (λ p, 1 ≤ p.2) d → 0 ≤ dict_get d c 0.
Proof.
  induction 1 as [|[k v] d Hv _ IH]; simpl in *; [lia|].
  case_bool_decide; lia.
Qed.

Lemma dict_set_positive d c (v : Z) :
  1 ≤ v → Forall (λ p, 1 ≤ p.2) d → Forall (λ p, 1 ≤ p.2) (dict_set d c v).
Proof.
  intros Hv. induction 1 as [|[k w] d Hw Hd IH]; simpl in *.
  - by repeat constructor.
  - case_bool_decide; constructor; auto.
Qed.

Lemma tally_positive (channels : list string) :
  Forall (λ p, 1 ≤ p.2) (foldl tally [] channels).
Proof.
  induction channels as [|c channels IH] using rev_ind; [constructor|].
  rewrite foldl_snoc. unfold tally at 1. apply dict_set_positive; [|done].
  pose proof (dict_get_nonneg _ c IH). lia.
Qed.

Lemma total_count_foldl (channels : list string) :
  total_count (foldl tally [] channels) = Z.of_nat (length channels).
Proof.
  induction channels as [|c channels IH] using rev_ind; [done|].
  rewrite foldl_snoc, total_count_tally, IH, length_app. simpl. lia.
Qed.

(** X10: the statistics count every message once: the counts add up to the
    number of messages, and no channel is listed with a count below one. *)
Theorem channel_stats_counts_every_message (messages : list message) :
  total_count (channel_stats messages) = Z.of_nat (length messages)
  ∧ Forall (λ p, 1 ≤ p.2) (channel_stats messages).
Proof.
  unfold channel_stats. rewrite count_by_channel_tally. split.
  - rewrite (total_count_perm _ _ (sorted_desc_perm _)).
    by rewrite total_count_foldl, length_fmap.
  - rewrite sorted_desc_perm. apply tally_positive.
Qed.

End StatsTotals.

Section StatsTool.
Context `{Runtime}.
Implicit Types (arguments : gmap string value) (data : dataset).

Lemma stats_filters_dates_only (v w : value) :
  dates_only (<["to_date" := w]> (<["from_date" := v]> ∅)).
Proof.
  intros k Hk.
  repeat (apply elem_of_cons in Hk as [->|Hk]; [done|]).
  by apply elem_of_nil in Hk.
Qed.

(** X11: with both dates given and well-formed, [get_channel_stats] answers with
    the statistics of exactly the messages between the two midnights, both
    included. *)
Theorem channel_stats_between_dates data arguments (f t : string) (lo hi : Z)
    (when : message → Z) :
  arguments !! "from_date" = Some (VStr f) →
  arguments !! "to_date" = Some (VStr t) →
  fromisoformat f = Ok (Naive lo) →
  fromisoformat t = Ok (Naive hi) →
  (∀ msg, msg ∈ messages_of data → local_time (ts msg) = Ok (when msg)) →
  call_tool_get_channel_stats data arguments
  = Content (channel_stats
               (List.filter (λ msg, (lo <=? when msg) && (when msg <=? hi))
                  (messages_of data))).
Proof.
  intros Hfrom Hto Hf Ht Hwhen. unfold call_tool_get_channel_stats.
  rewrite Hfrom, Hto. simpl.
  set (filters := <["to_date" := VStr t]> (<["from_date" := VStr f]> ∅)).
  assert (Hq : query_messages data filters
    = Ok (List.filter (λ msg, in_range (Some lo) (when msg) (Some hi))
            (messages_of data))).
  { apply query_loop_filter. intros msg Hin.
    rewrite msg_passes_dates_only by apply stats_filters_dates_only.
    apply check_dates_in_range; [by apply bound_present with f
                                |by apply bound_present with t
                                |by apply Hwhen]. }
  by rewrite Hq.
Qed.

(** X12: [get_channel_stats] needs both dates.  Without [from_date] it fails on
    any snapshot that has a message, [to_date] given or not; without
    [to_date] it fails as soon as one message is not before [from_date], and
    answers with empty statistics when every message is before it. *)
Theorem channel_stats_needs_both_dates data arguments :
  (messages_of data ≠ [] →
   arguments !! "from_date" = None →
   ∃ e, call_tool_get_channel_stats data arguments = ErrorText e)
  ∧ (∀ (f : string) (lo : Z) (when : message → Z),
       arguments !! "from_date" = Some (VStr f) →
       arguments !! "to_date" = None →
       fromisoformat f = Ok (Naive lo) →
       (∀ msg, msg ∈ messages_of data → local_time (ts msg) = Ok (when msg)) →
       (Exists (λ msg, lo ≤ when msg) (messages_of data) →
        ∃ e, call_tool_get_channel_stats data arguments = ErrorText e)
       ∧ (Forall (λ msg, when msg < lo) (messages_of data) →
          call_tool_get_channel_stats data arguments = Content [])).
Proof.
  split.
  - intros Hne Hfrom. unfold call_tool_get_channel_stats.
    rewrite Hfrom. simpl.
    set (filters := <["to_date" := _]> (<["from_date" := VNone]> ∅)).
    assert (Hraise : raises (query_messages data filters)).
    { apply query_loop_raises. unfold messages_of in Hne.
      destruct (default [] (all_messages data)) as [|msg rest]; [done|].
      left. apply malformed_from_raises with VNone;
        [done|by exists TypeError|by unfold skipped_by_channel, check_channel]. }
    destruct Hraise as [e ->]. by exists e.
  - intros f lo when Hfrom Hto Hf Hwhen.
    unfold call_tool_get_channel_stats. rewrite Hfrom, Hto. simpl.
    set (filters := <["to_date" := VNone]> (<["from_date" := VStr f]> ∅)).
    assert (Hmsg : ∀ msg, msg ∈ messages_of data →
      msg_passes filters msg
      = if lo <=? when msg then Raise TypeError else Ok false).
    { intros msg Hin.
      rewrite msg_passes_dates_only by apply stats_filters_dates_only.
      unfold check_dates, filters.
      rewrite lookup_insert_ne, lookup_insert_eq, lookup_insert_eq by done.
      rewrite (Hwhen msg Hin). simpl.
      rewrite (check_from_naive _ _ _ Hf).
      by destruct (lo <=? when msg). }
    split.
    + intros Hex.
      assert (Hraise : raises (query_messages data filters)).
      { apply query_loop_raises. rewrite Exists_exists in Hex |- *.
        destruct Hex as (msg & Hin & Hle). exists msg.
        split; [done|].
        rewrite (Hmsg msg Hin), (proj2 (Z.leb_le _ _) Hle).
        by exists TypeError. }
      destruct Hraise as [e ->]. by exists e.
    + intros Hall.
      assert (Hq : query_messages data filters = Ok []).
      { unfold query_messages. fold (messages_of data).
        rewrite (query_loop_filter _ (λ _, false)); [by rewrite filter_none|].
        intros msg Hin. rewrite (Hmsg msg Hin).
        rewrite Forall_forall in Hall.
        by rewrite (proj2 (Z.leb_gt _ _) (Hall msg Hin)). }
      by rewrite Hq.
Qed.

End StatsTool.

(** ** The snapshot locator *)

Section LocatorProperties.
Variable glob : string → list string.
Variable st_mtime : string → Z.
Implicit Types (l : list (string * Z)) (x y : string * Z).

(** The head of a list sorted by decreasing key is the first of the items
    of greatest key. *)
Lemma head_sorted_desc l x :
  head (sorted_desc l) = Some x →
  ∃ l1 l2, l = l1 ++ x :: l2
           ∧ Forall (λ y, y.2 < x.2) l1 ∧ Forall (λ y, y.2 ≤ x.2) l2.
Proof.
  revert x. induction l as [|a l IH]; intros x; [done|]. simpl.
  destruct (sorted_desc l) as [|y s] eqn:Hs; simpl.
  - intros [= <-]. exists [], l. split; [done|]. split; [constructor|].
    assert (Hnil : l = []).
    { apply Permutation_nil_r. by rewrite <- Hs, sorted_desc_perm. }
    rewrite Hnil. constructor.
  - destruct (IH y eq_refl) as (l1 & l2 & Hl & Hl1 & Hl2).
    destruct (Z.ltb_spec a.2 y.2) as [Hlt|Hge]; simpl; intros [= <-].
    + exists (a :: l1), l2. rewrite Hl. split; [done|].
      split; [by constructor|done].
    + exists [], l. split; [done|]. split; [constructor|].
      rewrite Hl. apply Forall_app. split.
      * eapply Forall_impl; [exact Hl1|]. simpl. intros; lia.
      * constructor; [lia|].
        eapply Forall_impl; [exact Hl2|]. simpl. intros; lia.
Qed.

Lemma sorted_desc_nil l : sorted_desc l = [] → l = [].
Proof. intros Hs. apply Permutation_nil_r. by rewrite <- Hs, sorted_desc_perm. Qed.

Lemma candidates_unfold :
  candidates glob
  = glob "hemingway_*.json" ++ glob "slack_*.json" ++ glob "*_slack_export.json".
Proof. unfold candidates, patterns. simpl. by rewrite <- app_assoc. Qed.

(** X13: the locator finds nothing exactly when no path matches any of the three
    patterns. *)
Theorem no_snapshot_iff_no_match :
  get_latest_extraction glob st_mtime = None
  ↔ glob "hemingway_*.json" = [] ∧ glob "slack_*.json" = []
    ∧ glob "*_slack_export.json" = [].
Proof.
  unfold get_latest_extraction. rewrite candidates_unfold.
  set (c := glob "hemingway_*.json" ++ _). split.
  - destruct c as [|p c'] eqn:Hc.
    + intros _. unfold c in Hc.
      apply app_eq_nil in Hc as [? Hc]. by apply app_eq_nil in Hc as [? ?].
    + destruct (sorted_desc _) as [|y s] eqn:Hs; [|done].
      by apply sorted_desc_nil in Hs.
  - intros (H1 & H2 & H3). unfold c. by rewrite H1, H2, H3.
Qed.

(** X14: the path the locator returns is a candidate of greatest modification
    time, and among those of the same time the first one listed: every
    candidate before it is strictly older, none after it is newer. *)
Theorem latest_snapshot_is_newest (p : string) :
  get_latest_extraction glob st_mtime = Some p →
  ∃ before after,
    candidates glob = before ++ p :: after
    ∧ Forall (λ q, st_mtime q < st_mtime p) before
    ∧ Forall (λ q, st_mtime q ≤ st_mtime p) after.
Proof.
  unfold get_latest_extraction.
  destruct (candidates glob) as [|c0 cs] eqn:Hc; [done|]. rewrite <- Hc.
  destruct (head (sorted_desc _)) as [[q t]|] eqn:Hhead; simpl; [|done].
  intros [= ->].
  apply head_sorted_desc in Hhead as (l1 & l2 & Hl & Hl1 & Hl2).
  apply fmap_app_inv in Hl as (before & rest & Hbefore & Hrest & Hsplit).
  symmetry in Hrest. apply fmap_cons_inv in Hrest as (p' & after & Hp & Hafter & ->).
  injection Hp as -> ->. subst l1 l2.
  exists before, after. split; [done|].
  rewrite !Forall_fmap in Hl1, Hl2. split; [exact Hl1|exact Hl2].
Qed.

End LocatorProperties.

(** ** The projections *)

Section StringFacts.
Implicit Types (s t : string) (n : nat).

Lemma take_chars_length n s :
  String.length (take_chars n s) = Nat.min n (String.length s).
Proof.
  revert s. induction n as [|n IH]; intros [|c s]; simpl; [done..|].
  by rewrite IH.
Qed.

Lemma take_chars_prefix n s : starts_with (take_chars n s) s = true.
Proof.
  revert s. induction n as [|n IH]; intros [|c s]; simpl; [done..|].
  by rewrite bool_decide_eq_true_2, IH.
Qed.

Lemma take_chars_short n s : (String.length s ≤ n)%nat → take_chars n s = s.
Proof.
  revert s. induction n as [|n IH]; intros [|c s]; simpl; [done|lia|done|].
  intros Hle. rewrite IH; [done|lia].
Qed.

Lemma remove_dots_app s t :
  remove_dots (s +:+ t) = remove_dots s +:+ remove_dots t.
Proof.
  induction s as [|c s IH]; simpl; [done|].
  case_bool_decide; simpl; by rewrite IH.
Qed.

Lemma contains_dot_cons (c : ascii) s :
  contains "." (String c s) = bool_decide ("."%char = c) || contains "." s.
Proof. simpl. by rewrite andb_true_r. Qed.

Lemma remove_dots_none s : contains "." s = false → remove_dots s = s.
Proof.
  induction s as [|c s IH]; [done|].
  rewrite contains_dot_cons. intros [Hc Hs]%orb_false_elim.
  apply bool_decide_eq_false_1 in Hc. simpl.
  rewrite bool_decide_eq_false_2 by congruence. by rewrite IH.
Qed.

Lemma remove_dots_clean s : contains "." (remove_dots s) = false.
Proof.
  induction s as [|c s IH]; [done|]. cbn [remove_dots].
  case_bool_decide as Hc; [done|]. rewrite contains_dot_cons, IH.
  rewrite bool_decide_eq_false_2 by congruence. done.
Qed.

End StringFacts.

Section ProjectionProperties.
Context `{Runtime}.
Variable strftime_ymd : Z → string.
Implicit Types (msg : message) (m : member) (data : dataset).
Implicit Types (arguments : gmap string value).

(** X15: the text of a projected message is the first 200 characters of the
    message text: a prefix of it, of length the smaller of 200 and the
    length of the text, and the text itself when that has at most 200
    characters; a missing text gives the empty string. *)
Theorem simplified_text_is_truncated msg :
  let original := default "" (text msg) in
  let shown := out_text (simplify_message msg) in
  String.length shown = Nat.min 200 (String.length original)
  ∧ starts_with shown original = true
  ∧ ((String.length original ≤ 200)%nat → shown = original)
  ∧ (text msg = None → shown = "").
Proof.
  cbv zeta. unfold simplify_message. cbn [out_text].
  split; [apply take_chars_length|].
  split; [apply take_chars_prefix|].
  split; [apply take_chars_short|]. by intros ->.
Qed.

(** X16: the permalink of a message with a [ts] of the form seconds, dot,
    fraction is the archive address, the channel id, [/p] and the digits of
    the [ts] without the dot; whatever the [ts], no dot of it remains. *)
Theorem permalink_drops_the_dot msg (secs frac : string) :
  ts msg = Some (secs +:+ "." +:+ frac) →
  contains "." secs = false →
  contains "." frac = false →
  out_permalink (simplify_message msg)
  = archives +:+ default "None" (channel_id msg) +:+ "/p" +:+ secs +:+ frac
  ∧ contains "." (remove_dots (secs +:+ "." +:+ frac)) = false.
Proof.
  intros Hts Hsecs Hfrac. split; [|apply remove_dots_clean].
  unfold simplify_message. cbn [out_permalink]. rewrite Hts.
  cbn [default from_option id]. rewrite remove_dots_app.
  change ("." +:+ frac) with (String "."%char frac).
  cbn [remove_dots]. rewrite bool_decide_eq_true_2 by done.
  by rewrite (remove_dots_none secs), (remove_dots_none frac).
Qed.

(** X17: with a non-negative integer [limit] the [query_messages] tool never
    answers with more than [limit] records; the records are the projections
    of the first matches, in their order. *)
Theorem tool_returns_at_most_limit data arguments (n : Z)
    (records : list simplified) :
  default (VInt 50) (arguments !! "limit") = VInt n →
  0 ≤ n →
  arguments !! "data" = None →
  call_tool_query_messages_simplified data arguments = Content records →
  Z.of_nat (length records) ≤ n
  ∧ ∃ matched,
      query_messages data (delete "limit" arguments) = Ok matched
      ∧ records = simplify_message <$> take (Z.to_nat n) matched
      ∧ length records = Nat.min (Z.to_nat n) (length matched).
Proof.
  intros Hlimit Hn Hdata.
  unfold call_tool_query_messages_simplified, call_tool_query_messages.
  rewrite Hlimit, lookup_delete_ne, Hdata by done.
  rewrite bool_decide_eq_false_2 by (by intros [? ?]).
  destruct (query_messages data (delete "limit" arguments)) as [matched|e];
    simpl; [|done].
  rewrite slice_upto_nonneg by done. intros [= <-].
  split; [rewrite length_fmap, length_take; lia|].
  exists matched. by rewrite length_fmap, length_take.
Qed.

(** X18: other values of [limit]: [null] returns every match, a string makes the
    tool fail with [TypeError] once the filter has returned, [true] is 1. *)
Theorem limit_loose_values data arguments (matched : list message) :
  arguments !! "data" = None →
  query_messages data (delete "limit" arguments) = Ok matched →
  (arguments !! "limit" = Some VNone →
   call_tool_query_messages data arguments = Content matched)
  ∧ (∀ s, arguments !! "limit" = Some (VStr s) →
     call_tool_query_messages data arguments = ErrorText TypeError)
  ∧ (arguments !! "limit" = Some (VBool true) →
     call_tool_query_messages data arguments = Content (take 1 matched)).
Proof.
  intros Hdata Hmatched. unfold call_tool_query_messages.
  rewrite lookup_delete_ne, Hdata, Hmatched by done.
  rewrite bool_decide_eq_false_2 by (by intros [? ?]).
  split; [|split]; [intros Hl|intros s Hl|intros Hl]; by rewrite Hl.
Qed.

Lemma comprehension_ok {A B : Type} (f : A → result B) (l : list A) :
  Forall (λ x, ∃ y, f x = Ok y) l →
  ∃ ys, comprehension f l = Ok ys ∧ Forall2 (λ x y, f x = Ok y) l ys.
Proof.
  induction 1 as [|x l [y Hy] _ (ys & Hys & Hall)]; simpl.
  - exists []. by split; [|constructor].
  - exists (y :: ys). rewrite Hy, Hys. simpl. by split; [|constructor].
Qed.

Lemma comprehension_raises {A B : Type} (f : A → result B) (l : list A) :
  Exists (λ x, raises (f x)) l → raises (comprehension f l).
Proof.
  induction 1 as [x l [e He]|x l _ [e He]]; simpl.
  - rewrite He. by exists e.
  - destruct (f x); simpl; [|by eexists]. rewrite He. by exists e.
Qed.

Lemma simplify_member_ok m :
  (∃ d, local_time (member_ts m) = Ok d) →
  ∃ r, simplify_member strftime_ymd m = Ok r.
Proof. intros [d Hd]. unfold simplify_member. rewrite Hd. by eexists. Qed.

(** X19: with a date bound in force, the projection of the members cannot fail
    once the filter has returned: the filter has read the [ts] of every
    member, so the tool answers with one record per member kept, in order. *)
Theorem members_tool_projects_the_kept data arguments (kept : list member) :
  let from_date := default VNone (arguments !! "from_date") in
  let to_date := default VNone (arguments !! "to_date") in
  truthy from_date = true ∨ truthy to_date = true →
  get_new_members data from_date to_date = Ok kept →
  ∃ records,
    call_tool_get_new_members strftime_ymd data arguments = Content records
    ∧ Forall2 (λ m r, simplify_member strftime_ymd m = Ok r) kept records.
Proof.
  intros from_date to_date Hbound Hkept.
  unfold call_tool_get_new_members. fold from_date to_date. rewrite Hkept. simpl.
  assert (Hread : Forall (λ m, ∃ d, local_time (member_ts m) = Ok d) kept).
  { unfold get_new_members in Hkept.
    assert (Hloop : negb (truthy from_date) && negb (truthy to_date) = false).
    { destruct Hbound as [-> | ->]; [done|by rewrite andb_false_r]. }
    rewrite Hloop in Hkept.
    apply members_loop_reads_all in Hkept as [Hsub Hall].
    rewrite Forall_forall in Hall |- *. intros m Hm. apply Hall.
    by eapply elem_of_sublist. }
  destruct (comprehension_ok (simplify_member strftime_ymd) kept)
    as (records & -> & Hall).
  - eapply Forall_impl; [exact Hread|]. apply simplify_member_ok.
  - by exists records.
Qed.

(** X20: without a date bound the filter returns the members without reading
    their [ts], but the projection reads it for the joined date: one member
    whose [ts] cannot be read makes the tool answer with the error text. *)
Theorem members_tool_rereads_ts data arguments :
  arguments !! "from_date" = None →
  arguments !! "to_date" = None →
  Exists (λ m, raises (local_time (member_ts m))) (default [] (new_members data)) →
  get_new_members data VNone VNone = Ok (default [] (new_members data))
  ∧ ∃ e, call_tool_get_new_members strftime_ymd data arguments = ErrorText e.
Proof.
  intros Hfrom Hto Hbad. split; [done|].
  unfold call_tool_get_new_members. rewrite Hfrom, Hto. simpl.
  destruct (comprehension_raises (simplify_member strftime_ymd)
              (default [] (new_members data))) as [e He].
  - eapply Exists_impl; [exact Hbad|]. simpl.
    intros m Hm. unfold simplify_member. by apply raises_bind.
  - unfold get_new_members. simpl. rewrite He. by exists e.
Qed.

End ProjectionProperties.

(** ** Further runs on the reference runtime *)

Section MoreExamples.
#[local] Existing Instance Reference.runtime.
Import Sample MoreSamples ReferenceHost.

(** Decide membership in a list given by its elements. *)
Ltac by_cases_in Hin :=
  repeat (apply elem_of_cons in Hin as [->|Hin]; [reflexivity|]);
  by apply elem_of_nil in Hin.

Example strftime_new_year : strftime_ymd 1704067200000000 = "2024-01-01".
Proof. reflexivity. Qed.

Example strftime_leap_day : strftime_ymd 1709251199999999 = "2024-02-29".
Proof. reflexivity. Qed.

Example glob_slack :
  glob_in home "slack_*.json" = ["slack_2024-06-01.json"; "slack_2024-01-01.json"].
Proof. reflexivity. Qed.


(** January with and without the channel. *)
Lemma dropping_a_field_keeps_messages_witness :
  query_messages data (<["channel" := VStr "discussion"]> january)
  = Ok [jan1; inside]
  ∧ query_messages data (delete "channel" (<["channel" := VStr "discussion"]> january))
    = Ok [jan1; inside; jan31]
  ∧ [jan1; inside] `sublist_of` [jan1; inside; jan31].
Proof.
  split; [reflexivity|]. split; [reflexivity|].
  exact (dropping_a_field_keeps_messages data
           (<["channel" := VStr "discussion"]> january) "channel"
           [jan1; inside] [jan1; inside; jan31] eq_refl eq_refl).
Defined.

(** The January messages, asked for January again. *)
Lemma query_is_idempotent_witness :
  query_messages data january = Ok [jan1; inside; jan31]
  ∧ query_messages
      {| all_messages := Some [jan1; inside; jan31];
         new_members := new_members data |} january
    = Ok [jan1; inside; jan31].
Proof.
  split; [reflexivity|].
  exact (query_is_idempotent data january [jan1; inside; jan31] eq_refl).
Defined.

(** The category [intro] and the channel marker [07-intros]. *)
Lemma category_is_channel_marker_witness :
  ({["category" := VStr "Intro"]} : gmap string value) !! "channel" = None
  ∧ ({["category" := VStr "Intro"]} : gmap string value) !! "category"
    = Some (VStr "Intro")
  ∧ category_map !! lower "Intro" = Some "07-intros"
  ∧ query_messages data {["category" := VStr "Intro"]} = Ok [jan31]
  ∧ query_messages data
      (<["channel" := VStr "07-intros"]>
         (delete "category" {["category" := VStr "Intro"]}))
    = Ok [jan31].
Proof.
  do 4 (split; [reflexivity|]).
  exact (category_is_channel_marker data {["category" := VStr "Intro"]}
           "Intro" "07-intros" [jan31] eq_refl eq_refl eq_refl eq_refl).
Defined.

(** The number 7 where a string is expected. *)
Lemma ill_typed_field_raises_witness :
  messages_of data = before :: [jan1; inside; jan31; after]
  ∧ not_str (VInt 7)
  ∧ query_messages data {["channel" := VInt 7]} = Raise TypeError
  ∧ query_messages data {["user" := VInt 7]} = Raise AttributeError
  ∧ local_time (ts before) = Ok 1704067199999999
  ∧ query_messages data {["from_date" := VInt 7]} = Raise TypeError.
Proof.
  destruct (ill_typed_field_raises data before [jan1; inside; jan31; after]
              (VInt 7) eq_refl I) as (Hc & Hu & _ & _ & Hd).
  split; [reflexivity|]. split; [exact I|]. split; [exact Hc|].
  split; [exact Hu|]. split; [reflexivity|].
  exact (proj1 (Hd 1704067199999999 eq_refl)).
Defined.

(** [has_replies] given as [null]. *)
Lemma has_replies_loose_values_witness :
  (VNone = VNone ∨ ∃ s, VNone = VStr s)
  ∧ query_messages data {["has_replies" := VNone]} = Ok []
  ∧ query_messages data {["has_replies" := VInt 1]} = Ok [jan1; jan31].
Proof.
  destruct (has_replies_loose_values data) as (Hnone & Hone & _).
  split; [by left|]. split; [exact (Hnone VNone (or_introl eq_refl))|].
  exact (eq_trans Hone eq_refl).
Defined.

(** A snapshot file that holds an empty object. *)
Lemma empty_snapshot_never_raises_witness :
  messages_of {| all_messages := None; new_members := None |} = []
  ∧ query_messages {| all_messages := None; new_members := None |}
      {["from_date" := VStr "next week"]} = Ok []
  ∧ call_tool_get_channel_stats {| all_messages := None; new_members := None |} ∅
    = Content []
  ∧ get_new_members {| all_messages := None; new_members := None |}
      (VStr "next week") VNone = Ok [].
Proof.
  destruct (empty_snapshot_never_raises
              {| all_messages := None; new_members := None |}
              {["from_date" := VStr "next week"]} ∅ (VStr "next week") VNone)
    as [Hmsgs Hmembers].
  destruct (Hmsgs eq_refl) as [Hq Hs].
  split; [reflexivity|]. split; [exact Hq|]. split; [exact Hs|].
  exact (Hmembers eq_refl).
Defined.

(** The members who joined in January 2024, and all of them for the empty
    string. *)
Lemma members_in_range_witness :
  member_bound (VStr "2024-01-01") (Some 1704067200000000)
  ∧ member_bound (VStr "2024-01-31") (Some 1706659200000000)
  ∧ (∀ m, m ∈ default [] (new_members club) →
       local_time (member_ts m) = Ok (joined_at m))
  ∧ get_new_members club (VStr "2024-01-01") (VStr "2024-01-31") = Ok [ada; bob]
  ∧ member_bound (VStr "") None
  ∧ member_bound VNone None
  ∧ get_new_members odd_club (VStr "") VNone = Ok [ada; dee].
Proof.
  assert (Hlo : member_bound (VStr "2024-01-01") (Some 1704067200000000))
    by (by constructor).
  assert (Hhi : member_bound (VStr "2024-01-31") (Some 1706659200000000))
    by (by constructor).
  assert (Hwhen : ∀ m, m ∈ default [] (new_members club) →
       local_time (member_ts m) = Ok (joined_at m)).
  { intros m Hm. simpl in Hm. by_cases_in Hm. }
  assert (Hempty : member_bound (VStr "") None) by (by constructor).
  assert (Hnone : member_bound VNone None) by (by constructor).
  split; [exact Hlo|]. split; [exact Hhi|]. split; [exact Hwhen|].
  split.
  - exact (proj1 (members_in_range club _ _ _ _ joined_at Hlo Hhi
                    (or_intror Hwhen))).
  - split; [exact Hempty|]. split; [exact Hnone|].
    exact (proj2 (members_in_range odd_club _ _ _ _ joined_at Hempty Hnone
                    (or_introl (conj eq_refl eq_refl))) eq_refl eq_refl).
Defined.

Lemma members_result_is_subsequence_witness :
  get_new_members club (VStr "2024-01-31") VNone = Ok [bob; cy]
  ∧ [bob; cy] `sublist_of` default [] (new_members club).
Proof.
  split; [reflexivity|].
  exact (members_result_is_subsequence club (VStr "2024-01-31") VNone
           [bob; cy] eq_refl).
Defined.

(** The statistics of January 2024. *)
Lemma channel_stats_between_dates_witness :
  january !! "from_date" = Some (VStr "2024-01-01")
  ∧ january !! "to_date" = Some (VStr "2024-01-31")
  ∧ fromisoformat "2024-01-01" = Ok (Naive 1704067200000000)
  ∧ fromisoformat "2024-01-31" = Ok (Naive 1706659200000000)
  ∧ (∀ m, m ∈ messages_of data → local_time (ts m) = Ok (when m))
  ∧ call_tool_get_channel_stats data january
    = Content [("02-discussion", 2); ("07-intros", 1)].
Proof.
  assert (Hwhen : ∀ m, m ∈ messages_of data → local_time (ts m) = Ok (when m)).
  { intros m Hm. unfold messages_of, data in Hm. simpl in Hm. by_cases_in Hm. }
  do 4 (split; [reflexivity|]). split; [exact Hwhen|].
  exact (channel_stats_between_dates data january "2024-01-01" "2024-01-31"
           _ _ when eq_refl eq_refl eq_refl eq_refl Hwhen).
Defined.

(** Only [to_date], only a [from_date] that some message meets, and only a
    [from_date] later than every message. *)
Lemma channel_stats_needs_both_dates_witness :
  messages_of data ≠ []
  ∧ ({["to_date" := VStr "2024-01-31"]} : gmap string value) !! "from_date" = None
  ∧ (∃ e, call_tool_get_channel_stats data {["to_date" := VStr "2024-01-31"]}
          = ErrorText e)
  ∧ Forall (λ m, when m < 1735689600000000) (messages_of data)
  ∧ call_tool_get_channel_stats data {["from_date" := VStr "2025-01-01"]}
    = Content [].
Proof.
  assert (Hne : messages_of data ≠ []) by discriminate.
  assert (Hwhen : ∀ m, m ∈ messages_of data → local_time (ts m) = Ok (when m)).
  { intros m Hm. unfold messages_of, data in Hm. simpl in Hm. by_cases_in Hm. }
  assert (Hall : Forall (λ m, when m < 1735689600000000) (messages_of data)).
  { repeat constructor. }
  split; [exact Hne|]. split; [reflexivity|].
  split.
  - exact (proj1 (channel_stats_needs_both_dates data
                    {["to_date" := VStr "2024-01-31"]}) Hne eq_refl).
  - split; [exact Hall|].
    exact (proj2 (proj2 (channel_stats_needs_both_dates data
                           {["from_date" := VStr "2025-01-01"]})
                    "2025-01-01" 1735689600000000 when
                    eq_refl eq_refl eq_refl Hwhen) Hall).
Defined.

Example channel_stats_one_date_error :
  call_tool_get_channel_stats data {["from_date" := VStr "2024-01-01"]}
  = ErrorText TypeError.
Proof. reflexivity. Qed.

(** A directory without snapshot: only notes. *)
Lemma no_snapshot_iff_no_match_witness :
  glob_in [("notes.txt", 5)] "hemingway_*.json" = []
  ∧ glob_in [("notes.txt", 5)] "slack_*.json" = []
  ∧ glob_in [("notes.txt", 5)] "*_slack_export.json" = []
  ∧ get_latest_extraction (glob_in [("notes.txt", 5)]) (mtime_in [("notes.txt", 5)])
    = None.
Proof.
  do 3 (split; [reflexivity|]).
  exact (proj2 (no_snapshot_iff_no_match (glob_in [("notes.txt", 5)])
                  (mtime_in [("notes.txt", 5)]))
           (conj eq_refl (conj eq_refl eq_refl))).
Defined.

(** The newer of two dated files wins, and the tie with the export file
    goes to the one listed first. *)
Lemma latest_snapshot_is_newest_witness :
  get_latest_extraction (glob_in home) (mtime_in home)
  = Some "slack_2024-06-01.json"
  ∧ ∃ before after,
      candidates (glob_in home) = before ++ "slack_2024-06-01.json" :: after
      ∧ Forall (λ q, mtime_in home q < mtime_in home "slack_2024-06-01.json") before
      ∧ Forall (λ q, mtime_in home q ≤ mtime_in home "slack_2024-06-01.json") after.
Proof.
  split; [reflexivity|].
  exact (latest_snapshot_is_newest (glob_in home) (mtime_in home)
           "slack_2024-06-01.json" eq_refl).
Defined.

Example candidates_of_home :
  candidates (glob_in home)
  = ["hemingway_old.json"; "slack_2024-06-01.json"; "slack_2024-01-01.json";
     "team_slack_export.json"].
Proof. reflexivity. Qed.

(** A text of 250 characters and a short one. *)
Lemma simplified_text_is_truncated_witness :
  String.length (default "" (text wordy)) = 250%nat
  ∧ String.length (out_text (simplify_message wordy)) = 200%nat
  ∧ (String.length (default "" (text jan1)) ≤ 200)%nat
  ∧ out_text (simplify_message jan1) = "Hello, world".
Proof.
  destruct (simplified_text_is_truncated wordy) as (Hlen & _).
  destruct (simplified_text_is_truncated jan1) as (_ & _ & Hshort & _).
  split; [reflexivity|]. split; [exact Hlen|].
  assert (Hle : (String.length (default "" (text jan1)) ≤ 200)%nat)
    by (vm_compute; lia).
  split; [exact Hle|]. exact (Hshort Hle).
Defined.

(** The permalink of a message without channel id. *)
Lemma permalink_drops_the_dot_witness :
  ts wordy = Some ("1704067200" +:+ "." +:+ "000100")
  ∧ contains "." "1704067200" = false
  ∧ contains "." "000100" = false
  ∧ out_permalink (simplify_message wordy)
    = "https://hemingway-community.slack.com/archives/None/p1704067200000100".
Proof.
  do 3 (split; [reflexivity|]).
  exact (proj1 (permalink_drops_the_dot wordy "1704067200" "000100"
                  eq_refl eq_refl eq_refl)).
Defined.

(** Three matches and [limit] 2. *)
Lemma tool_returns_at_most_limit_witness :
  default (VInt 50) ((<["limit" := VInt 2]> {["channel" := VStr "asks"]}
                      : gmap string value) !! "limit") = VInt 2
  ∧ 0 ≤ 2
  ∧ (<["limit" := VInt 2]> {["channel" := VStr "asks"]}
      : gmap string value) !! "data" = None
  ∧ call_tool_query_messages_simplified asks
      (<["limit" := VInt 2]> {["channel" := VStr "asks"]})
    = Content [simplify_message before; simplify_message after]
  ∧ Z.of_nat (length [simplify_message before; simplify_message after]) ≤ 2.
Proof.
  split; [reflexivity|]. split; [lia|]. do 2 (split; [reflexivity|]).
  exact (proj1 (tool_returns_at_most_limit asks
                  (<["limit" := VInt 2]> {["channel" := VStr "asks"]}) 2
                  [simplify_message before; simplify_message after]
                  eq_refl ltac:(lia) eq_refl eq_refl)).
Defined.

(** [limit] given as [null] and as a string. *)
Lemma limit_loose_values_witness :
  (<["limit" := VNone]> {["channel" := VStr "asks"]}
    : gmap string value) !! "data" = None
  ∧ query_messages asks
      (delete "limit" (<["limit" := VNone]> {["channel" := VStr "asks"]}))
    = Ok [before; after; late]
  ∧ call_tool_query_messages asks
      (<["limit" := VNone]> {["channel" := VStr "asks"]})
    = Content [before; after; late]
  ∧ call_tool_query_messages asks
      (<["limit" := VStr "2"]> {["channel" := VStr "asks"]})
    = ErrorText TypeError.
Proof.
  do 2 (split; [reflexivity|]). split.
  - exact (proj1 (limit_loose_values asks
                    (<["limit" := VNone]> {["channel" := VStr "asks"]})
                    [before; after; late] eq_refl eq_refl) eq_refl).
  - exact (proj1 (proj2 (limit_loose_values asks
                    (<["limit" := VStr "2"]> {["channel" := VStr "asks"]})
                    [before; after; late] eq_refl eq_refl)) "2" eq_refl).
Defined.

(** The members who joined from 2024-01-31 on, with their joined dates. *)
Lemma members_tool_projects_the_kept_witness :
  truthy (default VNone (({["from_date" := VStr "2024-01-31"]}
                           : gmap string value) !! "from_date")) = true
  ∧ get_new_members club (VStr "2024-01-31") VNone = Ok [bob; cy]
  ∧ ∃ records,
      call_tool_get_new_members strftime_ymd club
        {["from_date" := VStr "2024-01-31"]} = Content records
      ∧ Forall2 (λ m r, simplify_member strftime_ymd m = Ok r) [bob; cy] records.
Proof.
  do 2 (split; [reflexivity|]).
  exact (members_tool_projects_the_kept strftime_ymd club
           {["from_date" := VStr "2024-01-31"]} [bob; cy]
           (or_introl eq_refl) eq_refl).
Defined.

Example members_tool_joined_dates :
  out_joined_date <$>
    match call_tool_get_new_members strftime_ymd club ∅ with
    | Content records => records
    | ErrorText _ => []
    end
  = ["2024-01-01"; "2024-01-31"; "2024-01-31"].
Proof. reflexivity. Qed.

(** A member whose [ts] is no number, and no date bound. *)
Lemma members_tool_rereads_ts_witness :
  (∅ : gmap string value) !! "from_date" = None
  ∧ (∅ : gmap string value) !! "to_date" = None
  ∧ Exists (λ m, raises (local_time (member_ts m)))
      (default [] (new_members odd_club))
  ∧ get_new_members odd_club VNone VNone = Ok [ada; dee]
  ∧ ∃ e, call_tool_get_new_members strftime_ymd odd_club ∅ = ErrorText e.
Proof.
  assert (Hbad : Exists (λ m, raises (local_time (member_ts m)))
      (default [] (new_members odd_club))).
  { right. left. by exists ValueError. }
  do 2 (split; [reflexivity|]). split; [exact Hbad|].
  exact (members_tool_rereads_ts strftime_ymd odd_club ∅ eq_refl eq_refl Hbad).
Defined.

End MoreExamples.
